(** * respa: the reservation endpoint and the Exchange item identifier

    A shallow embedding of [resources/api/reservation.py] (serializer
    validation, filter backend, object permission, view-set hooks) and of
    [respa_exchange/ews/objs.py] (the [ItemID] value object), with the
    properties the specification states about them.

    Python objects become records, querysets become lists of rows in
    queryset order, the reservation table is a finite map from primary key
    to row, and a call that may raise returns a [result]. *)

From Stdlib Require Import Ascii.
From stdpp Require Import gmap strings list fin_maps.

(** ** Exceptions and fallible calls *)

(** A JSON value of a request body. Numbers are integers here: no statement
    depends on a fractional one. *)
#[warnings="-register-all"]
Inductive Json :=
| JNull
| JBool (b : bool)
| JNum (n : Z)
| JStr (s : string)
| JList (l : list Json)
| JObj (o : list (string * Json)).

(** Python truthiness of a decoded JSON value ([if user_data:]). *)
Definition truthy (j : Json) : bool :=
  match j with
  | JNull => false
  | JBool b => b
  | JNum n => negb (n =? 0)%Z
  | JStr s => negb (String.eqb s "")
  | JList l => negb (bool_decide (length l = 0))
  | JObj o => negb (bool_decide (length o = 0))
  end.

(** [j[key]] on a decoded JSON value. *)
Fixpoint json_item (key : string) (o : list (string * Json)) : option Json :=
  match o with
  | [] => None
  | (k, v) :: o' => if String.eqb k key then Some v else json_item key o'
  end.

(** The detail carried by a validation error: a message, a message keyed by
    a field name ([dict(comments=...)], [{'user': {'id': [...]}}]), or the
    message [Invalid pk "{pk_value}" - object does not exist.] with the
    value it is formatted with. *)
Inductive Detail :=
| Msg (s : string)
| Field (name : string) (d : Detail)
| InvalidPk (pk_value : Json).

Inductive Exc :=
| ValidationError (detail : Detail)            (* django.core.exceptions *)
| SerializerValidationError (detail : Detail)  (* rest_framework.serializers *)
| PermissionDenied                             (* django.core.exceptions *)
| ParseError (detail : string)                 (* rest_framework.exceptions *)
| KeyError (key : string)
| TypeError (msg : string)
| ValueError (msg : string).

Inductive result (A : Type) :=
| Ok (a : A)
| Raise (e : Exc).
Arguments Ok {A} a.
Arguments Raise {A} e.

#[global] Instance result_ret : MRet result := fun A a => Ok a.
#[global] Instance result_bind : MBind result := fun A B f m =>
  match m with
  | Ok a => f a
  | Raise e => Raise e
  end.

Definition raised {A} (m : result A) : bool :=
  match m with
  | Ok _ => false
  | Raise _ => true
  end.

Module Api.

(** ** Data model (resources.models, users.models) *)

Record User := {
  user_pk : Z;
  uuid : Z;
  user_is_staff : bool
}.

(** [request.user]: Django's [AnonymousUser] or a stored user. *)
Inductive RequestUser :=
| AnonymousUser
| Authenticated (u : User).

Definition is_authenticated (u : RequestUser) : bool :=
  match u with
  | AnonymousUser => false
  | Authenticated _ => true
  end.

Definition is_staff (u : RequestUser) : bool :=
  match u with
  | AnonymousUser => false
  | Authenticated u => user_is_staff u
  end.

(** Modelled from the spec: [Reservation.STATE_CHOICES] is declared in
    resources/models/reservation.py, which is not among the sources; the
    spec gives the closed enumeration REQUESTED, CONFIRMED, DENIED,
    CANCELLED. *)
Inductive State :=
| REQUESTED
| CONFIRMED
| DENIED
| CANCELLED.

#[global] Instance State_eq_dec : EqDecision State.
Proof. solve_decision. Defined.

(** A resource with its policy. The bodies of the policy methods live in
    resources/models, outside the sources, so each one is a field: every
    statement below holds for whatever the methods answer. *)
Record Resource := {
  resource_pk : Z;
  need_manual_confirmation : bool;
  can_make_reservations : RequestUser → bool;
  can_approve_reservations : RequestUser → bool;
  is_admin : RequestUser → bool
}.

(** A row of the reservation table. [user] is a nullable foreign key. *)
Record Reservation := {
  pk : Z;
  resource : Resource;
  user : option User;
  begin_ : Z;
  end_ : Z;
  comments : option string;
  state : State;
  extra_fields : gmap string string;
  created_by : option User;
  modified_by : option User
}.

(** [obj.user == request.user]: model instances are equal when their
    primary keys agree; a missing owner and the anonymous user equal no
    stored user. *)
Definition user_eq (owner : option User) (u : RequestUser) : bool :=
  match owner, u with
  | Some o, Authenticated u' => bool_decide (user_pk o = user_pk u')
  | _, _ => false
  end.

(** The serializer's validated data: the keys [user], [comments] and
    [state] may be absent from the dict. *)
Record Data := {
  d_resource : Resource;
  d_begin : Z;
  d_end : Z;
  d_user : option User;
  d_comments : option string;
  d_state : option State;
  d_extra : gmap string string
}.

(** [data.pop('user', None)] *)
Definition pop_user (data : Data) : Data :=
  {| d_resource := d_resource data; d_begin := d_begin data;
     d_end := d_end data; d_user := None; d_comments := d_comments data;
     d_state := d_state data; d_extra := d_extra data |}.

(** [deserialized_data['user'] = u] *)
Definition set_user (u : User) (data : Data) : Data :=
  {| d_resource := d_resource data; d_begin := d_begin data;
     d_end := d_end data; d_user := Some u; d_comments := d_comments data;
     d_state := d_state data; d_extra := d_extra data |}.

(** ** ReservationSerializer.validate_state *)

Definition allowed_states : list State := [REQUESTED; CONFIRMED; DENIED].

Definition validate_state (instance : option Reservation)
    (request_user : RequestUser) (value : State) : result State :=
  match instance with
  | None => Ok value
  | Some instance =>
      if bool_decide (state instance = value) then Ok value
      else if can_approve_reservations (resource instance) request_user
              && (bool_decide (state instance ∈ allowed_states)
                  && bool_decide (value ∈ allowed_states))
      then Ok value
      else Raise (ValidationError (Msg "Illegal state change"))
  end.

(** ** UserFilterBackend.filter_queryset *)

Record Request := {
  req_method : string;
  req_user : RequestUser;
  query_params : gmap string string
}.

(** [str.lower] on the ASCII range. A character outside it never lowers
    to a letter of the tokens compared below, so the comparison is the
    same as Python's. *)
Definition lower_ascii (c : ascii) : ascii :=
  let n := nat_of_ascii c in
  if (65 <=? n)%nat && (n <=? 90)%nat then ascii_of_nat (n + 32) else c.

Fixpoint lower (s : string) : string :=
  match s with
  | EmptyString => EmptyString
  | String c s' => String (lower_ascii c) (lower s')
  end.

Definition true_tokens : list string := ["true"; "t"; "yes"; "y"; "1"].
Definition false_tokens : list string := ["false"; "f"; "no"; "n"; "0"].

(** [queryset.filter(user=request.user)] keeps the rows for which this
    holds, [queryset.exclude(user=request.user)] the other rows. *)
Definition owned_by (u : RequestUser) (r : Reservation) : bool :=
  user_eq (user r) u.

Section UserFilterBackend.

(** [uuid.UUID(s)] of the Python standard library, [None] when it raises
    [ValueError]. *)
Context (uuid_UUID : string → option Z).

(** First half of [filter_queryset]: the [user] query parameter. *)
Definition filter_by_user (request : Request)
    (queryset : list Reservation) : result (list Reservation) :=
  match query_params request !! "user" with
  | Some user =>
      if negb (String.eqb user "") then
        match uuid_UUID user with
        | None => Raise (ParseError "Invalid value in filter user")
        | Some user_uuid =>
            Ok (List.filter
                  (λ r, match Api.user r with
                        | Some o => bool_decide (uuid o = user_uuid)
                        | None => false
                        end) queryset)
        end
      else Ok queryset
  | None => Ok queryset
  end.

(** Second half of [filter_queryset]: the [is_own] query parameter. *)
Definition filter_by_is_own (request : Request)
    (queryset : list Reservation) : result (list Reservation) :=
  if negb (is_authenticated (req_user request)) then Ok queryset
  else
    match query_params request !! "is_own" with
    | Some is_own =>
        let is_own := lower is_own in
        if bool_decide (is_own ∈ true_tokens)
        then Ok (List.filter (owned_by (req_user request)) queryset)
        else if bool_decide (is_own ∈ false_tokens)
        then Ok (List.filter (λ r, negb (owned_by (req_user request) r))
                   queryset)
        else Raise (ParseError "Invalid value in filter is_own")
    | None => Ok queryset
    end.

Definition filter_queryset (request : Request)
    (queryset : list Reservation) : result (list Reservation) :=
  queryset ← filter_by_user request queryset;
  filter_by_is_own request queryset.

End UserFilterBackend.

(** ** ReservationPermission.has_object_permission *)

Definition SAFE_METHODS : list string := ["GET"; "HEAD"; "OPTIONS"].

Section ReservationPermission.

(** The model method [Reservation.need_manual_confirmation()], whose body
    is outside the sources. *)
Context (reservation_need_manual_confirmation : Reservation → bool).

Definition has_object_permission (request : Request)
    (obj : Reservation) : bool :=
  if bool_decide (req_method request ∈ SAFE_METHODS) then true
  else
    let cannot_approve :=
      negb (can_approve_reservations (resource obj) (req_user request)) in
    if reservation_need_manual_confirmation obj
       && bool_decide (state obj = CONFIRMED) && cannot_approve
    then false
    else is_admin (resource obj) (req_user request)
         || user_eq (user obj) (req_user request).

End ReservationPermission.

(** ** ReservationViewSet *)

Definition get_queryset (request_user : RequestUser)
    (queryset : list Reservation) : list Reservation :=
  if is_staff request_user then queryset
  else
    let filters := λ r, bool_decide (state r ∈ [CONFIRMED; REQUESTED]) in
    let filters :=
      if is_authenticated request_user
      then λ r, filters r || owned_by request_user r
      else filters in
    List.filter filters queryset.

(** The notices the hooks ask the model to send. *)
Inductive Mail :=
| created_by_admin_mail (instance : Reservation)
| updated_by_admin_mail_if_changed (instance old_instance : Reservation)
| deleted_by_admin_mail (instance : Reservation).

(** [serializer.save] with keyword arguments and no instance: the keyword arguments
    are laid over the validated data (a [state] or [user] sent by the
    caller is replaced), and the row is inserted under a new primary key. *)
Definition save_new (validated_data : Data)
    (kw_created_by kw_modified_by : User) (kw_user : option User)
    (kw_state : State) (db : gmap Z Reservation)
    : Reservation * gmap Z Reservation :=
  let instance :=
    {| pk := fresh (dom db);
       resource := d_resource validated_data;
       user := match kw_user with
               | Some u => Some u
               | None => d_user validated_data
               end;
       begin_ := d_begin validated_data;
       end_ := d_end validated_data;
       comments := d_comments validated_data;
       state := kw_state;
       extra_fields := d_extra validated_data;
       created_by := Some kw_created_by;
       modified_by := Some kw_modified_by |} in
  (instance, <[pk instance := instance]> db).

(** [serializer.save(modified_by=...)] with an instance: the keys present
    in the validated data overwrite the row's fields, and the row is
    written back. The caller has popped [state] already. *)
Definition save_changes (instance : Reservation) (validated_data : Data)
    (kw_modified_by : User) (db : gmap Z Reservation)
    : Reservation * gmap Z Reservation :=
  let instance :=
    {| pk := pk instance;
       resource := d_resource validated_data;
       user := match d_user validated_data with
               | Some u => Some u
               | None => user instance
               end;
       begin_ := d_begin validated_data;
       end_ := d_end validated_data;
       comments := match d_comments validated_data with
                   | Some c => Some c
                   | None => comments instance
                   end;
       state := default (state instance) (d_state validated_data);
       extra_fields := d_extra validated_data ∪ extra_fields instance;
       created_by := created_by instance;
       modified_by := Some kw_modified_by |} in
  (instance, <[pk instance := instance]> db).

(** [validated_data.pop('state', ...)] *)
Definition pop_state (data : Data) : Data :=
  {| d_resource := d_resource data; d_begin := d_begin data;
     d_end := d_end data; d_user := d_user data;
     d_comments := d_comments data; d_state := None;
     d_extra := d_extra data |}.

Definition with_state (new_state : State) (instance : Reservation)
    : Reservation :=
  {| pk := pk instance; resource := resource instance;
     user := user instance; begin_ := begin_ instance;
     end_ := end_ instance; comments := comments instance;
     state := new_state; extra_fields := extra_fields instance;
     created_by := created_by instance;
     modified_by := modified_by instance |}.

(** Modelled from the spec: [Reservation.set_state(new_state, user)] is a
    method of resources/models/reservation.py, which is not among the
    sources. The spec calls it the state transition of the stored record
    ("delete maps to a CANCELLED state transition, not row removal"): the
    row's state becomes [new_state] and the row is written back under its
    key. Whatever else the method does, a check on the acting user or a
    change to another field, is not known from the sources or the spec
    and is not modelled. *)
Definition set_state (new_state : State) (u : User)
    (instance : Reservation) (db : gmap Z Reservation)
    : Reservation * gmap Z Reservation :=
  let instance := with_state new_state instance in
  (instance, <[pk instance := instance]> db).

(** The three hooks run behind [IsAuthenticatedOrReadOnly], so
    [self.request.user] is a stored user when they run. *)
Definition perform_create (request_user : User) (validated_data : Data)
    (db : gmap Z Reservation)
    : Reservation * gmap Z Reservation * list Mail :=
  let kw_user := match d_user validated_data with
                 | None => Some request_user
                 | Some _ => None
                 end in
  let kw_state := if need_manual_confirmation (d_resource validated_data)
                  then REQUESTED else CONFIRMED in
  let '(instance, db) :=
    save_new validated_data request_user request_user kw_user kw_state db in
  (instance, db,
   if negb (user_eq (user instance) (Authenticated request_user))
   then [created_by_admin_mail instance] else []).

Definition perform_update (request_user : User)
    (old_instance : Reservation) (validated_data : Data)
    (db : gmap Z Reservation)
    : Reservation * gmap Z Reservation * list Mail :=
  let new_state := default (state old_instance) (d_state validated_data) in
  let validated_data := pop_state validated_data in
  let '(new_instance, db) :=
    save_changes old_instance validated_data request_user db in
  let '(new_instance, db) := set_state new_state request_user new_instance db in
  (new_instance, db,
   if negb (user_eq (user new_instance) (Authenticated request_user))
   then [updated_by_admin_mail_if_changed new_instance old_instance]
   else []).

Definition perform_destroy (request_user : User) (instance : Reservation)
    (db : gmap Z Reservation) : gmap Z Reservation * list Mail :=
  let '(instance, db) := set_state CANCELLED request_user instance db in
  (db,
   if negb (user_eq (user instance) (Authenticated request_user))
   then [deleted_by_admin_mail instance] else []).

(** ** Sample data *)

Local Open Scope Z_scope.

Definition alice : User := {| user_pk := 1; uuid := 101; user_is_staff := false |}.
Definition bob : User := {| user_pk := 2; uuid := 102; user_is_staff := false |}.
Definition carol : User := {| user_pk := 3; uuid := 103; user_is_staff := false |}.
Definition dave : User := {| user_pk := 4; uuid := 104; user_is_staff := true |}.

(** A room that needs manual confirmation: everybody may reserve it,
    carol and staff administer it and approve its reservations. *)
Definition room_manager (u : RequestUser) : bool :=
  match u with
  | AnonymousUser => false
  | Authenticated u => bool_decide (user_pk u = 3) || user_is_staff u
  end.

Definition room : Resource :=
  {| resource_pk := 10; need_manual_confirmation := true;
     can_make_reservations := λ _, true;
     can_approve_reservations := room_manager;
     is_admin := room_manager |}.


Definition booking (key : Z) (owner : User) (s : State) : Reservation :=
  {| pk := key; resource := room; user := Some owner;
     begin_ := 1000; end_ := 2000; comments := None; state := s;
     extra_fields := ∅; created_by := Some owner;
     modified_by := Some owner |}.

Definition wanted (res : Resource) (ending : Z) : Data :=
  {| d_resource := res; d_begin := 1000; d_end := ending; d_user := None;
     d_comments := None; d_state := None; d_extra := ∅ |}.

(** A request body that names user 42 as the owner. *)
Definition body_for_42 : gmap string Json :=
  {[ "user" := JObj [("id", JNum 42)] ]}.

Definition listing (u : RequestUser) (is_own : string) : Request :=
  {| req_method := "GET"; req_user := u;
     query_params := {[ "is_own" := is_own ]} |}.

(** Collaborators for the examples: checks that accept everything, a
    deserializer that yields given fields, a nested user serializer that
    accepts everything, and user tables. *)
Definition accept_period
    : Resource → option Reservation → RequestUser → Data → result () :=
  λ _ _ _ _, Ok ().
Definition accept_quota : Resource → RequestUser → result () := λ _ _, Ok ().
Definition accept_clean : Data → option Reservation → result () :=
  λ _ _, Ok ().
Definition fields_of (d : Data) : gmap string Json → result Data :=
  λ _, Ok d.
Definition nested_user_valid : Json → option Detail := λ _, None.
Definition no_users : Json → option User := λ _, None.
Definition no_uuid : string → option Z := λ _, None.
Definition manual (r : Reservation) : bool :=
  need_manual_confirmation (resource r).

(** ** ReservationSerializer.to_internal_value and validate *)

Section Endpoint.

(** What the serializer calls outside the sources. The framework:
    [super().to_internal_value], the nested [UserSerializer(data=...)
    .is_valid] (its error detail, [None] when the data is valid) and
    [User.objects.get] by [USER_ID_ATTRIBUTE] ([None] for [DoesNotExist]).
    The models: the resource's period and quota checks and the model's
    [clean]; they read their arguments and either return or raise. *)
Context
  (super_to_internal_value : gmap string Json → result Data)
  (UserSerializer_errors : Json → option Detail)
  (User_objects_get : Json → option User)
  (validate_reservation_period :
     Resource → option Reservation → RequestUser → Data → result ())
  (validate_max_reservations_per_user : Resource → RequestUser → result ())
  (clean : Data → option Reservation → result ()).

Definition to_internal_value (data : gmap string Json) : result Data :=
  let user_data := data !! "user" in
  let data := delete "user" data in
  deserialized_data ← super_to_internal_value data;
  match user_data with
  | Some user_data =>
      if truthy user_data then
        match UserSerializer_errors user_data with
        | Some errors => Raise (SerializerValidationError errors)
        | None =>
            match user_data with
            | JObj o =>
                match json_item "id" o with
                | Some pk_value =>
                    match User_objects_get pk_value with
                    | Some u => Ok (set_user u deserialized_data)
                    | None =>
                        Raise (SerializerValidationError
                                 (Field "user" (Field "id" (InvalidPk pk_value))))
                    end
                | None => Raise (KeyError "id")
                end
            | _ => Raise (TypeError "user data is not a mapping")
            end
        end
      else Ok deserialized_data
  | None => Ok deserialized_data
  end.

(** [now] is the value of [timezone.now()]; timestamps are integers on one
    time line. Taking the row lock on the resource changes nothing in a
    single request, so it leaves no trace here. *)
Definition validate (reservation : option Reservation)
    (request_user : RequestUser) (now : Z) (data : Data) : result Data :=
  let resource := d_resource data in
  if negb (can_make_reservations resource request_user)
  then Raise PermissionDenied
  else if (d_end data <? now)%Z
  then Raise (ValidationError (Msg "Cannot make a reservation in the past"))
  else
    let data := if negb (is_admin resource request_user)
                then pop_user data else data in
    _ ← validate_reservation_period resource reservation request_user data;
    _ ← (if bool_decide (is_Some (d_comments data))
            && negb (is_admin resource request_user)
         then Raise (ValidationError
                       (Field "comments"
                          (Msg "Only allowed to be set by staff members")))
         else Ok ());
    _ ← match reservation with
        | None => validate_max_reservations_per_user resource request_user
        | Some _ => Ok ()
        end;
    _ ← clean data reservation;
    Ok data.

(** The framework's [is_valid(raise_exception=True)]: deserialize, then
    run the object-level [validate]. *)
Definition run_validation (reservation : option Reservation)
    (request_user : RequestUser) (now : Z)
    (initial_data : gmap string Json) : result Data :=
  data ← to_internal_value initial_data;
  validate reservation request_user now data.


(** The framework's create and update actions around the hooks: the
    request data is validated first, and the hook runs only when nothing
    was raised. *)
Definition create (request_user : User) (now : Z)
    (initial_data : gmap string Json) (db : gmap Z Reservation)
    : result Reservation * gmap Z Reservation * list Mail :=
  match run_validation None (Authenticated request_user) now initial_data with
  | Raise e => (Raise e, db, [])
  | Ok validated_data =>
      let '(instance, db, mails) :=
        perform_create request_user validated_data db in
      (Ok instance, db, mails)
  end.

Definition update (request_user : User) (instance : Reservation) (now : Z)
    (initial_data : gmap string Json) (db : gmap Z Reservation)
    : result Reservation * gmap Z Reservation * list Mail :=
  match run_validation (Some instance) (Authenticated request_user) now
          initial_data with
  | Raise e => (Raise e, db, [])
  | Ok validated_data =>
      let '(instance, db, mails) :=
        perform_update request_user instance validated_data db in
      (Ok instance, db, mails)
  end.

(** ** Properties of the serializer and the view-set hooks *)

Lemma validate_pop_user reservation request_user now data :
  is_admin (d_resource data) request_user = false →
  validate reservation request_user now data
  = validate reservation request_user now (pop_user data).
Proof. intros Hadm. unfold validate. simpl. by rewrite Hadm. Qed.

Lemma validate_Ok_inv reservation request_user now data data' :
  validate reservation request_user now data = Ok data' →
  can_make_reservations (d_resource data) request_user = true ∧
  (now ≤ d_end data)%Z ∧
  data' = (if negb (is_admin (d_resource data) request_user)
           then pop_user data else data).
Proof.
  unfold validate. intros Hv.
  destruct (can_make_reservations _ _); [|done].
  destruct (Z.ltb_spec (d_end data) now); [done|].
  simpl in Hv.
  destruct (validate_reservation_period _ _ _ _); [|done].
  simpl in Hv. destruct (_ && _); [done|]. simpl in Hv.
  destruct (match reservation with None => _ | Some _ => _ end); [|done].
  simpl in Hv. destruct (clean _ _); [|done].
  simpl in Hv. by injection Hv as <-.
Qed.


Lemma run_validation_Ok_inv reservation request_user now initial_data data' :
  run_validation reservation request_user now initial_data = Ok data' →
  ∃ data, to_internal_value initial_data = Ok data ∧
          validate reservation request_user now data = Ok data'.
Proof.
  unfold run_validation. destruct (to_internal_value initial_data); [|done].
  intros Hv. eauto.
Qed.


(** C4 (as amended). For an acting user who does not administer the
    resource, [validate] drops a [user] entry of the deserialized data
    without any effect on its outcome, so a created reservation belongs to
    the acting user and an updated one keeps its owner. Deserialization
    comes first and is the same for every caller: an absent or falsy
    [user] value is skipped, a truthy one that fails the nested
    validation or names no stored user raises a validation error. *)
Theorem non_admin_user_field (reservation : option Reservation)
    (request_user : User) (now : Z) (initial_data : gmap string Json)
    (deserialized_data : Data) (db : gmap Z Reservation) :
  super_to_internal_value (delete "user" initial_data)
  = Ok deserialized_data →
  is_admin (d_resource deserialized_data) (Authenticated request_user)
  = false →
  (* deserialization of the supplied value *)
  (match initial_data !! "user" with
   | None => to_internal_value initial_data = Ok deserialized_data
   | Some user_data =>
       if truthy user_data then
         match UserSerializer_errors user_data, user_data with
         | Some errors, _ =>
             to_internal_value initial_data
             = Raise (SerializerValidationError errors)
         | None, JObj o =>
             match json_item "id" o with
             | Some pk_value =>
                 match User_objects_get pk_value with
                 | Some u =>
                     to_internal_value initial_data
                     = Ok (set_user u deserialized_data)
                 | None =>
                     to_internal_value initial_data
                     = Raise (SerializerValidationError
                                (Field "user"
                                   (Field "id" (InvalidPk pk_value))))
                 end
             | None => raised (to_internal_value initial_data) = true
             end
         | None, _ => raised (to_internal_value initial_data) = true
         end
       else to_internal_value initial_data = Ok deserialized_data
   end) ∧
  (* validate discards whatever user was deserialized *)
  (∀ supplied : option User,
     let data := match supplied with
                 | Some u => set_user u deserialized_data
                 | None => deserialized_data
                 end in
     validate reservation (Authenticated request_user) now data
     = validate reservation (Authenticated request_user) now
         (pop_user deserialized_data) ∧
     ∀ data', validate reservation (Authenticated request_user) now data
              = Ok data' → d_user data' = None) ∧
  (* the owner after create and after update *)
  (∀ instance db' mails,
     create request_user now initial_data db = (Ok instance, db', mails) →
     user instance = Some request_user ∧ mails = []) ∧
  (∀ old_instance instance db' mails,
     update request_user old_instance now initial_data db
     = (Ok instance, db', mails) →
     user instance = user old_instance).
Proof.
  intros Hsuper Hadm.
  assert (Hres : ∀ data, to_internal_value initial_data = Ok data →
                         d_resource data = d_resource deserialized_data).
  { unfold to_internal_value. rewrite Hsuper. simpl. intros data Hd.
    destruct (initial_data !! "user") as [ud|]; [|by injection Hd as <-].
    destruct (truthy ud); [|by injection Hd as <-].
    destruct (UserSerializer_errors ud); [done|].
    destruct ud as [| | | | |o]; try done.
    destruct (json_item "id" o) as [pkv|]; [|done].
    destruct (User_objects_get pkv); [|done]. by injection Hd as <-. }
  assert (Hnone : ∀ r data data',
            to_internal_value initial_data = Ok data →
            validate r (Authenticated request_user) now data = Ok data' →
            d_resource data' = d_resource deserialized_data ∧
            d_user data' = None ∧ d_state data' = d_state data).
  { intros r data data' Hd Hv. apply validate_Ok_inv in Hv as (_ & _ & ->).
    rewrite (Hres _ Hd), Hadm. simpl. by rewrite (Hres _ Hd). }
  split; [|split; [|split]].
  - unfold to_internal_value. rewrite Hsuper. simpl.
    destruct (initial_data !! "user") as [ud|]; [|done].
    destruct (truthy ud); [|done].
    destruct (UserSerializer_errors ud); [done|].
    destruct ud as [| | | | |o]; try done.
    destruct (json_item "id" o) as [pkv|]; [|done].
    by destruct (User_objects_get pkv).
  - intros supplied data. split.
    + subst data. destruct supplied; simpl; [|by apply validate_pop_user].
      by rewrite validate_pop_user.
    + intros data' Hv. apply validate_Ok_inv in Hv as (_ & _ & ->).
      subst data. destruct supplied; simpl in *; by rewrite Hadm.
  - intros instance db' mails H. unfold create in H.
    destruct (run_validation _ _ _ _) as [vd|] eqn:Hrun; [|done].
    apply run_validation_Ok_inv in Hrun as (data & Hd & Hv).
    destruct (Hnone _ _ _ Hd Hv) as (_ & Hu & _).
    unfold perform_create, save_new in H. rewrite Hu in H. simpl in H.
    rewrite bool_decide_eq_true_2 in H by done. simpl in H.
    by injection H as <- _ <-.
  - intros old_instance instance db' mails H. unfold update in H.
    destruct (run_validation _ _ _ _) as [vd|] eqn:Hrun; [|done].
    apply run_validation_Ok_inv in Hrun as (data & Hd & Hv).
    destruct (Hnone _ _ _ Hd Hv) as (_ & Hu & _).
    unfold perform_update, save_changes, set_state in H. simpl in H.
    rewrite Hu in H. by injection H as <- _ _.
Qed.

(** C5. A reservation made by [perform_create] starts in REQUESTED when
    its resource needs manual confirmation and in CONFIRMED otherwise,
    whatever [state] the validated data carries; it is stored under a key
    the table did not hold. *)
Theorem perform_create_initial_state (request_user : User)
    (validated_data : Data) (db : gmap Z Reservation) :
  state (perform_create request_user validated_data db).1.1
  = (if need_manual_confirmation (d_resource validated_data)
     then REQUESTED else CONFIRMED) ∧
  resource (perform_create request_user validated_data db).1.1
  = d_resource validated_data ∧
  db !! pk (perform_create request_user validated_data db).1.1 = None ∧
  (perform_create request_user validated_data db).1.2
    !! pk (perform_create request_user validated_data db).1.1
  = Some (perform_create request_user validated_data db).1.1.
Proof.
  unfold perform_create, save_new. simpl. repeat split.
  - apply not_elem_of_dom, is_fresh.
  - by rewrite lookup_insert_eq.
Qed.

End Endpoint.

(** ** Properties of the state check, the permission, the listing and the
    filter *)

(** C1. For an existing reservation: proposing the current state is
    accepted; a user who may approve reservations of the resource may move
    between REQUESTED, CONFIRMED and DENIED; every other change of state is
    refused with the illegal-state validation error. *)
Theorem validate_state_transition_rule
    (instance : Reservation) (request_user : RequestUser) (value : State) :
  (state instance = value →
   validate_state (Some instance) request_user value = Ok value) ∧
  (can_approve_reservations (resource instance) request_user = true →
   state instance ∈ allowed_states → value ∈ allowed_states →
   validate_state (Some instance) request_user value = Ok value) ∧
  (state instance ≠ value →
   ¬ (can_approve_reservations (resource instance) request_user = true ∧
      state instance ∈ allowed_states ∧ value ∈ allowed_states) →
   validate_state (Some instance) request_user value
   = Raise (ValidationError (Msg "Illegal state change"))).
Proof.
  unfold validate_state. repeat split.
  - intros Hsame. by rewrite bool_decide_eq_true_2.
  - intros Happrove Hold Hnew. case_bool_decide; [done|].
    rewrite Happrove. by rewrite !bool_decide_eq_true_2.
  - intros Hdiff Hnot. rewrite bool_decide_eq_false_2 by done.
    destruct (can_approve_reservations _ _) eqn:Happrove; [|done].
    do 2 case_bool_decide; simpl; try done.
    exfalso. by apply Hnot.
Qed.

(** C2. A request with a safe method is always permitted on the object.
    A mutating request is denied when the reservation needs manual
    confirmation, is CONFIRMED and the actor may not approve reservations;
    otherwise it is granted exactly when the actor administers the
    resource or owns the reservation. *)
Theorem has_object_permission_rule
    (reservation_need_manual_confirmation : Reservation → bool)
    (request : Request) (obj : Reservation) :
  (req_method request ∈ SAFE_METHODS →
   has_object_permission reservation_need_manual_confirmation request obj
   = true) ∧
  (req_method request ∉ SAFE_METHODS →
   reservation_need_manual_confirmation obj = true →
   state obj = CONFIRMED →
   can_approve_reservations (resource obj) (req_user request) = false →
   has_object_permission reservation_need_manual_confirmation request obj
   = false) ∧
  (req_method request ∉ SAFE_METHODS →
   ¬ (reservation_need_manual_confirmation obj = true ∧
      state obj = CONFIRMED ∧
      can_approve_reservations (resource obj) (req_user request) = false) →
   (has_object_permission reservation_need_manual_confirmation request obj
    = true
    ↔ is_admin (resource obj) (req_user request) = true ∨
      user_eq (user obj) (req_user request) = true)).
Proof.
  unfold has_object_permission. split; [|split].
  - intros Hsafe. by rewrite bool_decide_eq_true_2.
  - intros Hunsafe Hneed Hstate Happrove.
    rewrite bool_decide_eq_false_2 by done.
    rewrite Hneed, Happrove. by rewrite bool_decide_eq_true_2.
  - intros Hunsafe Hfree. rewrite bool_decide_eq_false_2 by done.
    destruct (reservation_need_manual_confirmation obj) eqn:Hneed;
      simpl; [|by rewrite orb_true_iff].
    case_bool_decide as Hstate; simpl; [|by rewrite orb_true_iff].
    destruct (can_approve_reservations _ _) eqn:Happrove;
      simpl; [by rewrite orb_true_iff|].
    exfalso. by apply Hfree.
Qed.

(** C3 (as amended). The listing returns every reservation to a user
    whose [is_staff] flag is set. Any other authenticated user, whatever
    resources they administer, gets exactly the reservations they own
    together with those in state CONFIRMED or REQUESTED, and an
    unauthenticated user exactly those in state CONFIRMED or REQUESTED;
    the rows keep their order. *)
Theorem get_queryset_visibility (request_user : RequestUser)
    (queryset : list Reservation) :
  (is_staff request_user = true →
   get_queryset request_user queryset = queryset) ∧
  (is_staff request_user = false →
   is_authenticated request_user = true →
   ∀ r, r ∈ get_queryset request_user queryset
        ↔ r ∈ queryset ∧
          (owned_by request_user r = true ∨
           state r = CONFIRMED ∨ state r = REQUESTED)) ∧
  (is_authenticated request_user = false →
   ∀ r, r ∈ get_queryset request_user queryset
        ↔ r ∈ queryset ∧ (state r = CONFIRMED ∨ state r = REQUESTED)) ∧
  sublist (get_queryset request_user queryset) queryset.
Proof.
  assert (Hin : ∀ s : State,
            bool_decide (s ∈ [CONFIRMED; REQUESTED]) = true
            ↔ s = CONFIRMED ∨ s = REQUESTED).
  { intros s. rewrite bool_decide_eq_true, !elem_of_cons, elem_of_nil.
    tauto. }
  unfold get_queryset. split; [|split; [|split]].
  - by intros ->.
  - intros -> -> r. rewrite !list_elem_of_In, filter_In.
    rewrite orb_true_iff, Hin. tauto.
  - intros Hanon r.
    assert (is_staff request_user = false) as ->
      by (by destruct request_user).
    rewrite Hanon. rewrite !list_elem_of_In, filter_In.
    by rewrite Hin.
  - destruct (is_staff request_user); [done|].
    generalize (if is_authenticated request_user
                then λ r, bool_decide (state r ∈ [CONFIRMED; REQUESTED])
                          || owned_by request_user r
                else λ r, bool_decide (state r ∈ [CONFIRMED; REQUESTED])).
    intros f. induction queryset as [|r l IH]; simpl; [done|].
    destruct (f r); by constructor.
Qed.

(** C8 (as amended). For a listing request with an [is_own] parameter,
    once the [user] parameter has been handled without a parse error:
    an unauthenticated requester gets the queryset unfiltered, whatever
    the token; for an authenticated one the token is lower-cased first,
    then one of true, t, yes, y, 1 keeps the requester's own reservations,
    one of false, f, no, n, 0 keeps the others, and anything else raises
    the parse error. *)
Theorem filter_queryset_is_own (uuid_UUID : string → option Z)
    (request : Request) (queryset queryset' : list Reservation)
    (is_own : string) :
  query_params request !! "is_own" = Some is_own →
  filter_by_user uuid_UUID request queryset = Ok queryset' →
  (is_authenticated (req_user request) = false →
   filter_queryset uuid_UUID request queryset = Ok queryset') ∧
  (is_authenticated (req_user request) = true →
   lower is_own ∈ true_tokens →
   filter_queryset uuid_UUID request queryset
   = Ok (List.filter (owned_by (req_user request)) queryset')) ∧
  (is_authenticated (req_user request) = true →
   lower is_own ∈ false_tokens →
   filter_queryset uuid_UUID request queryset
   = Ok (List.filter (λ r, negb (owned_by (req_user request) r))
           queryset')) ∧
  (is_authenticated (req_user request) = true →
   lower is_own ∉ true_tokens → lower is_own ∉ false_tokens →
   filter_queryset uuid_UUID request queryset
   = Raise (ParseError "Invalid value in filter is_own")).
Proof.
  intros Hparam Huser. unfold filter_queryset. rewrite Huser. simpl.
  unfold filter_by_is_own. rewrite Hparam.
  assert (Hdisjoint : ∀ s, s ∈ false_tokens → s ∉ true_tokens).
  { intros s. unfold false_tokens, true_tokens.
    rewrite !elem_of_cons, !elem_of_nil.
    intros [->|[->|[->|[->|[->|[]]]]]]; by intros [?|[?|[?|[?|[?|?]]]]]. }
  split; [|split; [|split]].
  - by intros ->.
  - intros -> Htrue. simpl. by rewrite bool_decide_eq_true_2.
  - intros -> Hfalse. simpl.
    rewrite bool_decide_eq_false_2 by by apply Hdisjoint.
    by rewrite bool_decide_eq_true_2.
  - intros -> Hnt Hnf. simpl. by rewrite !bool_decide_eq_false_2.
Qed.

(** ** The statements at sample inputs *)

(** Membership in a literal list, decided by evaluation. *)
Ltac in_list := apply (bool_decide_unpack _); exact I.

Lemma validate_state_transition_rule_witness :
  validate_state (Some (booking 1 alice REQUESTED)) (Authenticated alice)
    REQUESTED = Ok REQUESTED ∧
  validate_state (Some (booking 1 alice REQUESTED)) (Authenticated carol)
    CONFIRMED = Ok CONFIRMED ∧
  validate_state (Some (booking 1 alice REQUESTED)) (Authenticated alice)
    CONFIRMED = Raise (ValidationError (Msg "Illegal state change")).
Proof.
  split; [|split].
  - destruct (validate_state_transition_rule (booking 1 alice REQUESTED)
                (Authenticated alice) REQUESTED) as (Hsame & _).
    apply Hsame. reflexivity.
  - destruct (validate_state_transition_rule (booking 1 alice REQUESTED)
                (Authenticated carol) CONFIRMED) as (_ & Hmove & _).
    apply Hmove; [reflexivity | in_list | in_list].
  - destruct (validate_state_transition_rule (booking 1 alice REQUESTED)
                (Authenticated alice) CONFIRMED) as (_ & _ & Hrefuse).
    apply Hrefuse.
    + discriminate.
    + intros (Happrove & _). discriminate Happrove.
Defined.

Lemma has_object_permission_rule_witness :
  has_object_permission manual (listing AnonymousUser "1")
    (booking 1 alice CONFIRMED) = true ∧
  has_object_permission manual
    {| req_method := "DELETE"; req_user := Authenticated alice;
       query_params := ∅ |} (booking 1 alice CONFIRMED) = false ∧
  (has_object_permission manual
     {| req_method := "DELETE"; req_user := Authenticated alice;
        query_params := ∅ |} (booking 1 alice REQUESTED) = true
   ↔ is_admin room (Authenticated alice) = true ∨
     user_eq (Some alice) (Authenticated alice) = true).
Proof.
  split; [|split].
  - destruct (has_object_permission_rule manual (listing AnonymousUser "1")
                (booking 1 alice CONFIRMED)) as (Hsafe & _).
    apply Hsafe. in_list.
  - destruct (has_object_permission_rule manual
                {| req_method := "DELETE"; req_user := Authenticated alice;
                   query_params := ∅ |} (booking 1 alice CONFIRMED))
      as (_ & Hdeny & _).
    apply Hdeny; [in_list | reflexivity | reflexivity | reflexivity].
  - destruct (has_object_permission_rule manual
                {| req_method := "DELETE"; req_user := Authenticated alice;
                   query_params := ∅ |} (booking 1 alice REQUESTED))
      as (_ & _ & Hgrant).
    apply Hgrant; [in_list|]. intros (_ & Hstate & _). discriminate Hstate.
Defined.

Lemma get_queryset_visibility_witness :
  get_queryset (Authenticated dave)
    [booking 1 alice DENIED; booking 2 bob CANCELLED]
  = [booking 1 alice DENIED; booking 2 bob CANCELLED] ∧
  (booking 1 alice DENIED
     ∈ get_queryset (Authenticated alice)
         [booking 1 alice DENIED; booking 2 bob CANCELLED]) ∧
  (booking 3 bob REQUESTED
     ∈ get_queryset AnonymousUser
         [booking 1 alice DENIED; booking 3 bob REQUESTED]).
Proof.
  split; [|split].
  - destruct (get_queryset_visibility (Authenticated dave)
                [booking 1 alice DENIED; booking 2 bob CANCELLED])
      as (Hstaff & _).
    apply Hstaff. reflexivity.
  - destruct (get_queryset_visibility (Authenticated alice)
                [booking 1 alice DENIED; booking 2 bob CANCELLED])
      as (_ & Huser & _).
    apply Huser; [reflexivity | reflexivity |].
    split; [apply list_elem_of_here | left; reflexivity].
  - destruct (get_queryset_visibility AnonymousUser
                [booking 1 alice DENIED; booking 3 bob REQUESTED])
      as (_ & _ & Hanon & _).
    apply Hanon; [reflexivity|].
    split; [apply list_elem_of_further, list_elem_of_here
           | right; reflexivity].
Defined.

(** C3, as the specification words it: carol administers the room without being
    staff, and the listing hides alice's denied reservation of that room
    from her. *)
Lemma get_queryset_resource_admin_not_staff :
  is_admin (resource (booking 1 alice DENIED)) (Authenticated carol) = true ∧
  is_staff (Authenticated carol) = false ∧
  get_queryset (Authenticated carol) [booking 1 alice DENIED] = [].
Proof. by repeat split. Qed.



Lemma non_admin_user_field_witness :
  to_internal_value (fields_of (wanted room 9000)) nested_user_valid
    no_users body_for_42
  = Raise (SerializerValidationError
             (Field "user" (Field "id" (InvalidPk (JNum 42))))) ∧
  validate accept_period accept_quota accept_clean None
    (Authenticated alice) 5000 (set_user bob (wanted room 9000))
  = validate accept_period accept_quota accept_clean None
      (Authenticated alice) 5000 (pop_user (wanted room 9000)).
Proof.
  destruct (non_admin_user_field (fields_of (wanted room 9000))
              nested_user_valid no_users accept_period accept_quota
              accept_clean None alice 5000 body_for_42 (wanted room 9000) ∅)
    as (Hdeserialize & Hdiscard & _); [reflexivity | reflexivity |].
  split; [exact Hdeserialize|].
  exact (proj1 (Hdiscard (Some bob))).
Defined.

(** C4, as the specification words it: alice does not administer the room; her
    request names user 42, who does not exist, and is refused with a
    validation error instead of being stored under her own name. *)
Lemma create_unknown_user_raises :
  is_admin room (Authenticated alice) = false ∧
  create (fields_of (wanted room 9000)) nested_user_valid no_users
    accept_period accept_quota accept_clean alice 5000 body_for_42 ∅
  = (Raise (SerializerValidationError
              (Field "user" (Field "id" (InvalidPk (JNum 42))))), ∅, []).
Proof. by split. Qed.

Lemma filter_queryset_is_own_witness :
  filter_queryset no_uuid (listing (Authenticated alice) "Yes")
    [booking 1 alice REQUESTED; booking 2 bob CONFIRMED]
  = Ok [booking 1 alice REQUESTED] ∧
  filter_queryset no_uuid (listing (Authenticated alice) "0")
    [booking 1 alice REQUESTED; booking 2 bob CONFIRMED]
  = Ok [booking 2 bob CONFIRMED] ∧
  filter_queryset no_uuid (listing (Authenticated alice) "maybe")
    [booking 1 alice REQUESTED; booking 2 bob CONFIRMED]
  = Raise (ParseError "Invalid value in filter is_own").
Proof.
  split; [|split].
  - destruct (filter_queryset_is_own no_uuid
                (listing (Authenticated alice) "Yes")
                [booking 1 alice REQUESTED; booking 2 bob CONFIRMED]
                [booking 1 alice REQUESTED; booking 2 bob CONFIRMED] "Yes")
      as (_ & Hown & _); [reflexivity | reflexivity |].
    apply Hown; [reflexivity | in_list].
  - destruct (filter_queryset_is_own no_uuid
                (listing (Authenticated alice) "0")
                [booking 1 alice REQUESTED; booking 2 bob CONFIRMED]
                [booking 1 alice REQUESTED; booking 2 bob CONFIRMED] "0")
      as (_ & _ & Hothers & _); [reflexivity | reflexivity |].
    apply Hothers; [reflexivity | in_list].
  - destruct (filter_queryset_is_own no_uuid
                (listing (Authenticated alice) "maybe")
                [booking 1 alice REQUESTED; booking 2 bob CONFIRMED]
                [booking 1 alice REQUESTED; booking 2 bob CONFIRMED] "maybe")
      as (_ & _ & _ & Hparse); [reflexivity | reflexivity |].
    apply Hparse; [reflexivity | in_list | in_list].
Defined.

(** C8, as the specification words it: an unauthenticated request with a token
    outside both lists gets the queryset back and no parse error; an
    authenticated one with TRUE, which is in neither list as written, gets
    its own reservations. *)
Lemma is_own_ignored_or_case_folded :
  ("maybe" ∉ true_tokens) ∧ ("maybe" ∉ false_tokens) ∧
  filter_queryset no_uuid (listing AnonymousUser "maybe")
    [booking 1 alice REQUESTED; booking 2 bob CONFIRMED]
  = Ok [booking 1 alice REQUESTED; booking 2 bob CONFIRMED] ∧
  ("TRUE" ∉ true_tokens) ∧ ("TRUE" ∉ false_tokens) ∧
  filter_queryset no_uuid (listing (Authenticated alice) "TRUE")
    [booking 1 alice REQUESTED; booking 2 bob CONFIRMED]
  = Ok [booking 1 alice REQUESTED].
Proof. repeat split; first [in_list | reflexivity]. Qed.


(** ** Further properties of validation and creation *)

Section Validation.

Context
  (super_to_internal_value : gmap string Json → result Data)
  (UserSerializer_errors : Json → option Detail)
  (User_objects_get : Json → option User)
  (validate_reservation_period :
     Resource → option Reservation → RequestUser → Data → result ())
  (validate_max_reservations_per_user : Resource → RequestUser → result ())
  (clean : Data → option Reservation → result ()).

Local Abbreviation validate_ :=
  (validate validate_reservation_period validate_max_reservations_per_user
     clean).
Local Abbreviation to_internal_value_ :=
  (to_internal_value super_to_internal_value UserSerializer_errors
     User_objects_get).
Local Abbreviation create_ :=
  (create super_to_internal_value UserSerializer_errors User_objects_get
     validate_reservation_period validate_max_reservations_per_user clean).

(** X3. Comments sent by a user who does not administer the resource are
    never accepted: [validate] raises whatever else the data holds, and
    when the checks before it pass the error is the one keyed by
    [comments]. *)
Theorem validate_comments_staff_only (reservation : option Reservation)
    (request_user : RequestUser) (now : Z) (data : Data) (c : string) :
  d_comments data = Some c →
  is_admin (d_resource data) request_user = false →
  raised (validate_ reservation request_user now data) = true ∧
  (can_make_reservations (d_resource data) request_user = true →
   (now ≤ d_end data)%Z →
   validate_reservation_period (d_resource data) reservation request_user
     (pop_user data) = Ok () →
   validate_ reservation request_user now data
   = Raise (ValidationError
              (Field "comments"
                 (Msg "Only allowed to be set by staff members")))).
Proof.
  intros Hc Hadm. unfold validate. rewrite Hadm. simpl. rewrite Hc. simpl.
  split.
  - destruct (can_make_reservations _ _); [|done]. simpl.
    destruct (d_end data <? now)%Z; [done|].
    by destruct (validate_reservation_period _ _ _ _).
  - intros -> Hend ->. simpl.
    by destruct (Z.ltb_spec (d_end data) now); [lia|].
Qed.

(** X4. Changing an existing reservation is exempt from the quota: the
    outcome of [validate] is the same whatever the per-user quota check
    would answer. For a new reservation a quota failure is raised once
    the checks before it have passed. *)
Theorem validate_quota_only_for_new (reservation : Reservation)
    (request_user : RequestUser) (now : Z) (data : Data)
    (other_quota : Resource → RequestUser → result ()) :
  validate validate_reservation_period other_quota clean (Some reservation)
    request_user now data
  = validate_ (Some reservation) request_user now data ∧
  (∀ e,
     can_make_reservations (d_resource data) request_user = true →
     (now ≤ d_end data)%Z →
     validate_reservation_period (d_resource data) None request_user
       (if is_admin (d_resource data) request_user
        then data else pop_user data) = Ok () →
     d_comments data = None ∨
     is_admin (d_resource data) request_user = true →
     validate_max_reservations_per_user (d_resource data) request_user
     = Raise e →
     validate_ None request_user now data = Raise e).
Proof.
  split; [done|].
  intros e Hmake Hend Hperiod Hcomments Hquota. unfold validate.
  rewrite Hmake. simpl.
  destruct (Z.ltb_spec (d_end data) now); [lia|].
  destruct (is_admin (d_resource data) request_user) eqn:Hadm; simpl;
    rewrite Hperiod; simpl.
  - rewrite andb_false_r. simpl. by rewrite Hquota.
  - destruct Hcomments as [->|]; [|done]. simpl. by rewrite Hquota.
Qed.

(** X5. What [validate] returns is the data it was given, except for the
    [user] entry, which is kept for an administrator of the resource and
    removed for everybody else. *)
Theorem validate_returns_its_data (reservation : option Reservation)
    (request_user : RequestUser) (now : Z) (data data' : Data) :
  validate_ reservation request_user now data = Ok data' →
  d_resource data' = d_resource data ∧ d_begin data' = d_begin data ∧
  d_end data' = d_end data ∧ d_comments data' = d_comments data ∧
  d_state data' = d_state data ∧ d_extra data' = d_extra data ∧
  d_user data' = (if is_admin (d_resource data) request_user
                  then d_user data else None).
Proof.
  intros Hv. apply validate_Ok_inv in Hv as (_ & _ & ->).
  by destruct (is_admin _ _).
Qed.

(** X6. An administrator of the resource may reserve for somebody else:
    when the request names a stored user, the created reservation belongs
    to that user, is marked as created and modified by the administrator,
    and the notice about it is sent exactly when the two differ. *)
Theorem create_for_another_user (admin owner : User) (now : Z)
    (initial_data : gmap string Json) (data : Data)
    (db db' : gmap Z Reservation) (instance : Reservation)
    (mails : list Mail) :
  to_internal_value_ initial_data = Ok data →
  d_user data = Some owner →
  is_admin (d_resource data) (Authenticated admin) = true →
  create_ admin now initial_data db = (Ok instance, db', mails) →
  user instance = Some owner ∧
  created_by instance = Some admin ∧ modified_by instance = Some admin ∧
  mails = (if bool_decide (user_pk owner = user_pk admin) then []
           else [created_by_admin_mail instance]).
Proof.
  intros Hdata Howner Hadm Hcreate. unfold create, run_validation in Hcreate.
  rewrite Hdata in Hcreate. simpl in Hcreate.
  destruct (validate _ _ _ _ _ _ data) as [vd|] eqn:Hv; [|done].
  apply validate_Ok_inv in Hv as (_ & _ & ->). rewrite Hadm in Hcreate.
  simpl in Hcreate. unfold perform_create, save_new in Hcreate.
  rewrite Howner in Hcreate. simpl in Hcreate.
  injection Hcreate as <- _ <-. simpl.
  by destruct (bool_decide (user_pk owner = user_pk admin)).
Qed.

End Validation.

(** X7. Creating a reservation touches no stored row: every row of the
    table is still there under its key, and the table gains exactly the
    new key. The new row names the acting user as creator and modifier,
    and as owner unless the validated data names another one. *)
Theorem perform_create_keeps_rows (request_user : User)
    (validated_data : Data) (db : gmap Z Reservation) :
  (∀ k row, db !! k = Some row →
            (perform_create request_user validated_data db).1.2 !! k
            = Some row) ∧
  dom (perform_create request_user validated_data db).1.2
  = {[ pk (perform_create request_user validated_data db).1.1 ]} ∪ dom db ∧
  (pk (perform_create request_user validated_data db).1.1 ∉ dom db) ∧
  created_by (perform_create request_user validated_data db).1.1
  = Some request_user ∧
  modified_by (perform_create request_user validated_data db).1.1
  = Some request_user ∧
  user (perform_create request_user validated_data db).1.1
  = Some (default request_user (d_user validated_data)).
Proof.
  unfold perform_create, save_new. simpl.
  split; [|split; [|split; [|split; [|split]]]]; try done.
  - intros k row Hrow. rewrite lookup_insert_ne; [done|].
    intros <-. apply elem_of_dom_2 in Hrow. by apply is_fresh in Hrow.
  - by rewrite dom_insert_L.
  - apply is_fresh.
  - by destruct (d_user validated_data).
Qed.

(** Further sample data: a user table that knows bob, a request body
    that names him, and a quota that is used up. *)
Definition only_bob : Json → option User :=
  λ pk_value, match pk_value with
              | JNum 2 => Some bob
              | _ => None
              end.
Definition body_for_bob : gmap string Json :=
  {[ "user" := JObj [("id", JNum 2)] ]}.
Definition quota_used_up : Resource → RequestUser → result () :=
  λ _ _,
    Raise (ValidationError (Msg "Maximum number of active reservations")).
Definition with_comments (c : string) (data : Data) : Data :=
  {| d_resource := d_resource data; d_begin := d_begin data;
     d_end := d_end data; d_user := d_user data; d_comments := Some c;
     d_state := d_state data; d_extra := d_extra data |}.

Lemma validate_comments_staff_only_witness :
  validate accept_period accept_quota accept_clean None
    (Authenticated alice) 5000 (with_comments "late" (wanted room 9000))
  = Raise (ValidationError
             (Field "comments"
                (Msg "Only allowed to be set by staff members"))).
Proof.
  destruct (validate_comments_staff_only accept_period accept_quota
              accept_clean None (Authenticated alice) 5000
              (with_comments "late" (wanted room 9000)) "late")
    as (_ & Hcomments); [reflexivity | reflexivity |].
  apply Hcomments; [reflexivity | discriminate | reflexivity].
Defined.

Lemma validate_quota_only_for_new_witness :
  validate accept_period quota_used_up accept_clean None
    (Authenticated alice) 5000 (wanted room 9000)
  = Raise (ValidationError (Msg "Maximum number of active reservations")) ∧
  validate accept_period quota_used_up accept_clean
    (Some (booking 1 alice REQUESTED)) (Authenticated alice) 5000
    (wanted room 9000)
  = validate accept_period accept_quota accept_clean
      (Some (booking 1 alice REQUESTED)) (Authenticated alice) 5000
      (wanted room 9000).
Proof.
  split.
  - destruct (validate_quota_only_for_new accept_period quota_used_up
                accept_clean (booking 1 alice REQUESTED)
                (Authenticated alice) 5000 (wanted room 9000) accept_quota)
      as (_ & Hnew).
    apply Hnew; [reflexivity | discriminate | reflexivity
                | left; reflexivity | reflexivity].
  - destruct (validate_quota_only_for_new accept_period accept_quota
                accept_clean (booking 1 alice REQUESTED)
                (Authenticated alice) 5000 (wanted room 9000) quota_used_up)
      as (Hexempt & _).
    exact Hexempt.
Defined.

Lemma validate_returns_its_data_witness :
  d_user (pop_user (set_user bob (wanted room 9000))) = None.
Proof.
  destruct (validate_returns_its_data accept_period accept_quota
              accept_clean None (Authenticated alice) 5000
              (set_user bob (wanted room 9000))
              (pop_user (set_user bob (wanted room 9000))))
    as (_ & _ & _ & _ & _ & _ & Huser); [reflexivity|].
  exact Huser.
Defined.

Lemma create_for_another_user_witness :
  user (perform_create dave (set_user bob (wanted room 9000)) ∅).1.1
  = Some bob ∧
  (perform_create dave (set_user bob (wanted room 9000)) ∅).2
  = [created_by_admin_mail
       (perform_create dave (set_user bob (wanted room 9000)) ∅).1.1].
Proof.
  destruct (create_for_another_user (fields_of (wanted room 9000))
              nested_user_valid only_bob accept_period accept_quota
              accept_clean dave bob 5000 body_for_bob
              (set_user bob (wanted room 9000)) ∅
              (perform_create dave (set_user bob (wanted room 9000)) ∅).1.2
              (perform_create dave (set_user bob (wanted room 9000)) ∅).1.1
              (perform_create dave (set_user bob (wanted room 9000)) ∅).2)
    as (Howner & _ & _ & Hmails);
    [reflexivity | reflexivity | reflexivity | reflexivity |].
  split; [exact Howner | exact Hmails].
Defined.

(** ** Further properties of the user filter *)

Lemma List_filter_sublist {A} (f : A → bool) (l : list A) :
  sublist (List.filter f l) l.
Proof.
  induction l as [|a l IH]; simpl; [done|].
  destruct (f a); by constructor.
Qed.

Lemma filter_by_user_sublist uuid_UUID request queryset queryset' :
  filter_by_user uuid_UUID request queryset = Ok queryset' →
  sublist queryset' queryset.
Proof.
  unfold filter_by_user.
  destruct (query_params request !! "user") as [s|]; [|by intros [= <-]].
  destruct (negb (s =? ""))%string; [|by intros [= <-]].
  destruct (uuid_UUID s); [|done].
  intros [= <-]. apply List_filter_sublist.
Qed.

Lemma filter_by_is_own_sublist request queryset queryset' :
  filter_by_is_own request queryset = Ok queryset' →
  sublist queryset' queryset.
Proof.
  unfold filter_by_is_own.
  destruct (negb (is_authenticated (req_user request)));
    [by intros [= <-]|].
  destruct (query_params request !! "is_own") as [tok|];
    [|by intros [= <-]].
  repeat case_bool_decide; [| |done];
    intros [= <-]; apply List_filter_sublist.
Qed.

(** X8. The user filter only ever drops rows: what it returns is the
    queryset with some rows left out, in the same order. With a [user]
    parameter that parses, every row that is left belongs to a user with
    that uuid, so rows without an owner are dropped. *)
Theorem filter_queryset_only_drops (uuid_UUID : string → option Z)
    (request : Request) (queryset queryset' : list Reservation) :
  filter_queryset uuid_UUID request queryset = Ok queryset' →
  sublist queryset' queryset ∧
  (∀ s user_uuid,
     query_params request !! "user" = Some s → s ≠ "" →
     uuid_UUID s = Some user_uuid →
     ∀ r, r ∈ queryset' → ∃ o, user r = Some o ∧ uuid o = user_uuid).
Proof.
  unfold filter_queryset. intros Hf.
  destruct (filter_by_user uuid_UUID request queryset) as [mid|] eqn:Hu;
    [|done].
  simpl in Hf. split.
  - etrans; [by eapply filter_by_is_own_sublist|].
    by eapply filter_by_user_sublist.
  - intros s user_uuid Hs Hne Hparse r Hr.
    apply filter_by_is_own_sublist in Hf.
    assert (Hmid : r ∈ mid) by by eapply elem_of_sublist.
    unfold filter_by_user in Hu. rewrite Hs in Hu.
    apply String.eqb_neq in Hne. rewrite Hne, Hparse in Hu. simpl in Hu.
    injection Hu as <-.
    apply list_elem_of_In, filter_In in Hmid as [_ Hmid].
    destruct (user r) as [o|]; [|done].
    apply bool_decide_eq_true_1 in Hmid. eauto.
Qed.

(** X9. For an authenticated requester the two kinds of [is_own] token
    split the listing: whenever the request without [is_own] succeeds,
    so do the one asking for own reservations and the one asking for the
    others, every row of the former listing is in exactly one of the two
    answers, and nothing else is. *)
Theorem is_own_splits_listing (uuid_UUID : string → option Z)
    (m : string) (u : RequestUser) (params : gmap string string)
    (queryset base : list Reservation) (yes no : string) :
  is_authenticated u = true →
  lower yes ∈ true_tokens → lower no ∈ false_tokens →
  filter_queryset uuid_UUID
    {| req_method := m; req_user := u;
       query_params := delete "is_own" params |} queryset = Ok base →
  ∃ own others,
    filter_queryset uuid_UUID
      {| req_method := m; req_user := u;
         query_params := <["is_own" := yes]> params |} queryset = Ok own ∧
    filter_queryset uuid_UUID
      {| req_method := m; req_user := u;
         query_params := <["is_own" := no]> params |} queryset = Ok others ∧
    (length own + length others = length base)%nat ∧
    (∀ r, r ∈ base ↔ r ∈ own ∨ r ∈ others) ∧
    (∀ r, ¬ (r ∈ own ∧ r ∈ others)).
Proof.
  intros Hauth Hyes Hno. unfold filter_queryset, filter_by_user. simpl.
  rewrite lookup_delete_ne, !lookup_insert_ne by done.
  destruct (match params !! "user" with Some _ => _ | None => _ end)
    as [mid|]; [|done].
  simpl. unfold filter_by_is_own. simpl. rewrite Hauth. simpl.
  rewrite lookup_delete_eq, !lookup_insert_eq.
  intros [= <-].
  assert (Hnot : lower no ∉ true_tokens).
  { revert Hno. unfold false_tokens, true_tokens.
    rewrite !elem_of_cons, !elem_of_nil.
    intros [->|[->|[->|[->|[->|[]]]]]]; by intros [?|[?|[?|[?|[?|?]]]]]. }
  rewrite (bool_decide_eq_true_2 _ Hyes), (bool_decide_eq_false_2 _ Hnot),
    (bool_decide_eq_true_2 _ Hno).
  eexists _, _. split; [done|]. split; [done|].
  split; [|split].
  - rewrite <- (filter_length (owned_by u) mid). lia.
  - intros r. rewrite !list_elem_of_In, !filter_In.
    destruct (owned_by u r); simpl; intuition congruence.
  - intros r. rewrite !list_elem_of_In, !filter_In.
    destruct (owned_by u r); simpl; intuition congruence.
Qed.

Lemma filter_queryset_errors_is_own request queryset e :
  filter_by_is_own request queryset = Raise e ↔
  is_authenticated (req_user request) = true ∧
  ∃ tok, query_params request !! "is_own" = Some tok ∧
         (lower tok ∉ true_tokens) ∧ (lower tok ∉ false_tokens) ∧
         e = ParseError "Invalid value in filter is_own".
Proof.
  unfold filter_by_is_own.
  destruct (is_authenticated (req_user request)); simpl;
    [|by split; [|intros [? _]]].
  destruct (query_params request !! "is_own") as [tok|];
    [|by split; [|intros (_ & ? & ? & _)]].
  repeat case_bool_decide.
  - split; [done|]. by intros (_ & ? & [= <-] & ? & _).
  - split; [done|]. by intros (_ & ? & [= <-] & _ & ? & _).
  - split.
    + intros [= <-]. split; [done|]. by exists tok.
    + by intros (_ & ? & [= <-] & _ & _ & ->).
Qed.

Lemma filter_by_user_Ok uuid_UUID request queryset queryset' :
  filter_by_user uuid_UUID request queryset = Ok queryset' →
  ∀ s, query_params request !! "user" = Some s → s ≠ "" →
       is_Some (uuid_UUID s).
Proof.
  unfold filter_by_user. intros Hf s Hs Hne. rewrite Hs in Hf.
  apply String.eqb_neq in Hne. rewrite Hne in Hf. simpl in Hf.
  by destruct (uuid_UUID s).
Qed.

Lemma filter_by_user_Raise uuid_UUID request queryset e :
  filter_by_user uuid_UUID request queryset = Raise e →
  ∃ s, query_params request !! "user" = Some s ∧ s ≠ "" ∧
       uuid_UUID s = None ∧ e = ParseError "Invalid value in filter user".
Proof.
  unfold filter_by_user.
  destruct (query_params request !! "user") as [s|]; [|done].
  destruct (String.eqb_spec s "") as [->|Hne]; simpl; [done|].
  destruct (uuid_UUID s) eqn:Hparse; [done|].
  intros [= <-]. by exists s.
Qed.

(** X10. The user filter raises in two cases only, both parse errors: a
    non-empty [user] parameter that is no uuid, for every requester; and,
    once the [user] parameter is fine, an [is_own] token outside both
    lists sent by an authenticated requester. *)
Theorem filter_queryset_errors (uuid_UUID : string → option Z)
    (request : Request) (queryset : list Reservation) (e : Exc) :
  filter_queryset uuid_UUID request queryset = Raise e ↔
  (∃ s, query_params request !! "user" = Some s ∧ s ≠ "" ∧
        uuid_UUID s = None ∧
        e = ParseError "Invalid value in filter user") ∨
  ((∀ s, query_params request !! "user" = Some s → s ≠ "" →
         is_Some (uuid_UUID s)) ∧
   is_authenticated (req_user request) = true ∧
   ∃ tok, query_params request !! "is_own" = Some tok ∧
          (lower tok ∉ true_tokens) ∧ (lower tok ∉ false_tokens) ∧
          e = ParseError "Invalid value in filter is_own").
Proof.
  unfold filter_queryset.
  destruct (filter_by_user uuid_UUID request queryset) as [mid|e'] eqn:Hu;
    simpl.
  - rewrite filter_queryset_errors_is_own.
    pose proof (filter_by_user_Ok _ _ _ _ Hu) as Hfine. split.
    + intros (Hauth & Htok). right. by split.
    + intros [(s & Hs & Hne & Hparse & _)|(_ & H)]; [|done].
      destruct (Hfine s Hs Hne) as [? ?]. congruence.
  - apply filter_by_user_Raise in Hu as (s & Hs & Hne & Hparse & ->).
    split.
    + intros [= <-]. left. by exists s.
    + intros [(s' & _ & _ & _ & ->)|(Hall & _)]; [done|].
      destruct (Hall s Hs Hne) as [? ?]. congruence.
Qed.

(** A uuid parser that knows one spelling of alice's uuid. *)
Definition alice_uuid_only : string → option Z :=
  λ s, if String.eqb s "00000000-0000-0000-0000-000000000065"
       then Some 101 else None.

Definition listing_for_alice_uuid : Request :=
  {| req_method := "GET"; req_user := AnonymousUser;
     query_params :=
       {[ "user" := "00000000-0000-0000-0000-000000000065" ]} |}.

Lemma filter_queryset_only_drops_witness :
  filter_queryset alice_uuid_only listing_for_alice_uuid
    [booking 1 alice REQUESTED; booking 2 bob CONFIRMED]
  = Ok [booking 1 alice REQUESTED] ∧
  sublist [booking 1 alice REQUESTED]
    [booking 1 alice REQUESTED; booking 2 bob CONFIRMED].
Proof.
  split; [reflexivity|].
  destruct (filter_queryset_only_drops alice_uuid_only
              listing_for_alice_uuid
              [booking 1 alice REQUESTED; booking 2 bob CONFIRMED]
              [booking 1 alice REQUESTED]) as (Hsub & _); [reflexivity|].
  exact Hsub.
Defined.

Lemma is_own_splits_listing_witness :
  ∃ own others,
    filter_queryset no_uuid
      {| req_method := "GET"; req_user := Authenticated alice;
         query_params := <["is_own" := "Y"]> ∅ |}
      [booking 1 alice REQUESTED; booking 2 bob CONFIRMED] = Ok own ∧
    filter_queryset no_uuid
      {| req_method := "GET"; req_user := Authenticated alice;
         query_params := <["is_own" := "no"]> ∅ |}
      [booking 1 alice REQUESTED; booking 2 bob CONFIRMED] = Ok others ∧
    (length own + length others
     = length [booking 1 alice REQUESTED; booking 2 bob CONFIRMED])%nat ∧
    (∀ r, r ∈ [booking 1 alice REQUESTED; booking 2 bob CONFIRMED]
          ↔ r ∈ own ∨ r ∈ others) ∧
    (∀ r, ¬ (r ∈ own ∧ r ∈ others)).
Proof.
  apply (is_own_splits_listing no_uuid "GET" (Authenticated alice) ∅
           [booking 1 alice REQUESTED; booking 2 bob CONFIRMED]
           [booking 1 alice REQUESTED; booking 2 bob CONFIRMED] "Y" "no");
    [reflexivity | in_list | in_list | reflexivity].
Defined.

(** ** ExcludePastFilterBackend, ResourceFilterBackend and the listing *)

Section Listing.

(** Outside the sources: [uuid.UUID], the framework's
    [BooleanField().to_internal_value] (it raises on a token it does not
    know), the database lookup [resource__id=value], and [make_aware]:
    what the database layer does with the naive local time it is handed
    in a lookup. It turns it into a point of the time line the stored
    ends live on, and raises for a local time that is ambiguous or does
    not exist in the current time zone. *)
Context
  (uuid_UUID : string → option Z)
  (BooleanField_to_internal_value : string → result bool)
  (make_aware : Z → result Z)
  (resource_id_is : string → Resource → bool).

(** [now] is the value of [datetime.now()], a naive local time. *)
Definition ExcludePastFilterBackend_filter_queryset (now : Z)
    (request : Request) (queryset : list Reservation)
    : result (list Reservation) :=
  let past := default "false" (query_params request !! "all") in
  past ← BooleanField_to_internal_value past;
  if negb past
  then
    now ← make_aware now;
    Ok (List.filter (λ r, (now <=? end_ r)%Z) queryset)
  else Ok queryset.

Definition ResourceFilterBackend_filter_queryset (request : Request)
    (queryset : list Reservation) : list Reservation :=
  match query_params request !! "resource" with
  | Some resource =>
      if negb (String.eqb resource "")
      then List.filter (λ r, resource_id_is resource (Api.resource r))
             queryset
      else queryset
  | None => queryset
  end.

(** The framework's list action: [get_queryset], then the classes of
    [filter_backends] in their order. [queryset] holds the rows of
    [Reservation.objects.all()]. *)
Definition list_queryset (now : Z) (request : Request)
    (queryset : list Reservation) : result (list Reservation) :=
  queryset ← filter_queryset uuid_UUID request
               (get_queryset (req_user request) queryset);
  queryset ← ExcludePastFilterBackend_filter_queryset now request queryset;
  Ok (ResourceFilterBackend_filter_queryset request queryset).

Lemma ExcludePast_sublist now request queryset queryset' :
  ExcludePastFilterBackend_filter_queryset now request queryset
  = Ok queryset' →
  sublist queryset' queryset.
Proof.
  unfold ExcludePastFilterBackend_filter_queryset.
  destruct (BooleanField_to_internal_value _) as [[|]|]; simpl; [| |done].
  - by intros [= <-].
  - destruct (make_aware now); simpl; [|done].
    intros [= <-]. apply List_filter_sublist.
Qed.

Lemma ResourceFilter_sublist request queryset :
  sublist (ResourceFilterBackend_filter_queryset request queryset) queryset.
Proof.
  unfold ResourceFilterBackend_filter_queryset.
  destruct (query_params request !! "resource") as [res|]; [|done].
  destruct (negb _); [apply List_filter_sublist | done].
Qed.

(** X11. The past filter reads [all] with the default [false]. When the
    flag reads as true it keeps everything and the clock is not
    consulted. When it reads as false and the local time converts, it
    keeps exactly the reservations whose end is at or after that time,
    one that ends at this very instant included. It raises in two cases
    only: the boolean field refuses the token, or the flag reads as
    false and the local time does not convert. *)
Theorem exclude_past_keeps_current (now : Z) (request : Request)
    (queryset : list Reservation) :
  (∀ aware_now,
     BooleanField_to_internal_value
       (default "false" (query_params request !! "all")) = Ok false →
     make_aware now = Ok aware_now →
     ∃ queryset',
       ExcludePastFilterBackend_filter_queryset now request queryset
       = Ok queryset' ∧
       sublist queryset' queryset ∧
       ∀ r, r ∈ queryset' ↔ r ∈ queryset ∧ (aware_now ≤ end_ r)%Z) ∧
  (BooleanField_to_internal_value
     (default "false" (query_params request !! "all")) = Ok true →
   ExcludePastFilterBackend_filter_queryset now request queryset
   = Ok queryset) ∧
  (∀ e,
     ExcludePastFilterBackend_filter_queryset now request queryset
     = Raise e ↔
     BooleanField_to_internal_value
       (default "false" (query_params request !! "all")) = Raise e ∨
     (BooleanField_to_internal_value
        (default "false" (query_params request !! "all")) = Ok false ∧
      make_aware now = Raise e)).
Proof.
  unfold ExcludePastFilterBackend_filter_queryset. split; [|split].
  - intros aware_now -> ->. simpl. eexists. split; [done|].
    split; [apply List_filter_sublist|].
    intros r. rewrite !list_elem_of_In, filter_In.
    by rewrite Z.leb_le.
  - by intros ->.
  - intros e. destruct (BooleanField_to_internal_value _) as [[|]|]; simpl.
    + split; [done|]. by intros [?|[? _]].
    + destruct (make_aware now); simpl.
      * split; [done|]. by intros [?|[_ ?]].
      * split; [intros [= <-]; by right|].
        intros [?|[_ ?]]; by simplify_eq.
    + split; [intros [= <-]; by left|].
      intros [?|[? _]]; by simplify_eq.
Qed.

(** X12. Whatever the query parameters, the list action only leaves rows
    out of the table, in order, and a requester who is not staff is never
    shown a reservation that is neither CONFIRMED nor REQUESTED unless it
    is their own. *)
Theorem list_queryset_hides_others (now : Z) (request : Request)
    (queryset rows : list Reservation) :
  list_queryset now request queryset = Ok rows →
  sublist rows queryset ∧
  (is_staff (req_user request) = false →
   ∀ r, r ∈ rows →
        state r = CONFIRMED ∨ state r = REQUESTED ∨
        owned_by (req_user request) r = true).
Proof.
  unfold list_queryset. intros Hlist.
  destruct (filter_queryset _ _ _) as [q1|] eqn:H1; [|done].
  simpl in Hlist.
  destruct (ExcludePastFilterBackend_filter_queryset _ _ _) as [q2|] eqn:H2;
    [|done].
  simpl in Hlist. injection Hlist as <-.
  assert (Hsub : sublist (ResourceFilterBackend_filter_queryset request q2)
                   (get_queryset (req_user request) queryset)).
  { etrans; [apply ResourceFilter_sublist|].
    etrans; [by eapply ExcludePast_sublist|].
    unfold filter_queryset in H1.
    destruct (filter_by_user _ _ _) as [q0|] eqn:H0; [|done].
    simpl in H1. etrans; [by eapply filter_by_is_own_sublist|].
    by eapply filter_by_user_sublist. }
  split.
  - etrans; [exact Hsub|]. unfold get_queryset.
    destruct (is_staff _); [done|]. apply List_filter_sublist.
  - intros Hstaff r Hr. eapply elem_of_sublist in Hr; [|exact Hsub].
    unfold get_queryset in Hr. rewrite Hstaff in Hr.
    apply list_elem_of_In, filter_In in Hr as [_ Hr].
    assert (Hstate : bool_decide (state r ∈ [CONFIRMED; REQUESTED]) = true
                     → state r = CONFIRMED ∨ state r = REQUESTED).
    { rewrite bool_decide_eq_true, !elem_of_cons, elem_of_nil. tauto. }
    destruct (is_authenticated (req_user request)).
    + apply orb_true_iff in Hr as [Hr|Hr]; [|by auto].
      destruct (Hstate Hr); auto.
    + destruct (Hstate Hr); auto.
Qed.

End Listing.

(** X13. A reservation that [create] has just stored is not hidden by
    the past filter run with a clock that is not ahead of the one
    validation read: validation accepted its end as not earlier than its
    own [now], and the filter keeps an end that is not earlier than the
    time it converts its local time to. There is no gap when the two
    times are the same. *)
Theorem created_reservation_is_listed
    (super_to_internal_value : gmap string Json → result Data)
    (UserSerializer_errors : Json → option Detail)
    (User_objects_get : Json → option User)
    (validate_reservation_period :
       Resource → option Reservation → RequestUser → Data → result ())
    (validate_max_reservations_per_user : Resource → RequestUser → result ())
    (clean : Data → option Reservation → result ())
    (BooleanField_to_internal_value : string → result bool)
    (make_aware : Z → result Z)
    (request_user : User) (now local_now aware_now : Z)
    (initial_data : gmap string Json)
    (db db' : gmap Z Reservation) (instance : Reservation)
    (mails : list Mail) (request : Request) (queryset : list Reservation) :
  create super_to_internal_value UserSerializer_errors User_objects_get
    validate_reservation_period validate_max_reservations_per_user clean
    request_user now initial_data db = (Ok instance, db', mails) →
  BooleanField_to_internal_value
    (default "false" (query_params request !! "all")) = Ok false →
  make_aware local_now = Ok aware_now →
  (aware_now ≤ now)%Z →
  instance ∈ queryset →
  (now ≤ end_ instance)%Z ∧
  ∃ queryset',
    ExcludePastFilterBackend_filter_queryset BooleanField_to_internal_value
      make_aware local_now request queryset = Ok queryset' ∧
    instance ∈ queryset'.
Proof.
  intros Hcreate Hflag Haware Hclock Hin.
  assert (Hend : (now ≤ end_ instance)%Z).
  { unfold create in Hcreate.
    destruct (run_validation _ _ _ _ _ _ _ _ _ _) as [vd|] eqn:Hrun;
      [|done].
    apply run_validation_Ok_inv in Hrun as (data & _ & Hv).
    apply validate_Ok_inv in Hv as (_ & Hend & ->).
    unfold perform_create, save_new in Hcreate. simpl in Hcreate.
    injection Hcreate as <- _ _. simpl. by destruct (negb _). }
  split; [done|].
  unfold ExcludePastFilterBackend_filter_queryset.
  rewrite Hflag. simpl. rewrite Haware. simpl.
  eexists. split; [done|].
  apply list_elem_of_In, filter_In. split; [by apply list_elem_of_In|].
  apply Z.leb_le. lia.
Qed.

(** The boolean field as the framework reads the usual spellings. *)
Definition usual_boolean : string → result bool :=
  λ s, if bool_decide (s ∈ ["true"; "True"; "1"]) then Ok true
       else if bool_decide (s ∈ ["false"; "False"; "0"]) then Ok false
       else Raise (SerializerValidationError
                     (Msg "Must be a valid boolean.")).
(** A time zone without ambiguous or missing hours, one hour ahead of
    the time line of the stored ends. *)
Definition plain_zone : Z → result Z := λ t, Ok (t - 3600).
Definition by_resource_pk : string → Resource → bool :=
  λ s res, bool_decide (s = "10" ∧ resource_pk res = 10).

Lemma exclude_past_keeps_current_witness :
  (∃ queryset',
     ExcludePastFilterBackend_filter_queryset usual_boolean plain_zone 5600
       (listing AnonymousUser "1")
       [booking 1 alice REQUESTED; booking 2 bob CONFIRMED]
     = Ok queryset' ∧
     sublist queryset' [booking 1 alice REQUESTED; booking 2 bob CONFIRMED] ∧
     ∀ r, r ∈ queryset'
          ↔ r ∈ [booking 1 alice REQUESTED; booking 2 bob CONFIRMED] ∧
            (2000 ≤ end_ r)%Z) ∧
  ExcludePastFilterBackend_filter_queryset usual_boolean plain_zone 5601
    {| req_method := "GET"; req_user := AnonymousUser;
       query_params := {[ "all" := "True" ]} |}
    [booking 1 alice REQUESTED; booking 2 bob CONFIRMED]
  = Ok [booking 1 alice REQUESTED; booking 2 bob CONFIRMED].
Proof.
  split.
  - destruct (exclude_past_keeps_current usual_boolean plain_zone 5600
                (listing AnonymousUser "1")
                [booking 1 alice REQUESTED; booking 2 bob CONFIRMED])
      as (Hpast & _).
    apply Hpast; reflexivity.
  - destruct (exclude_past_keeps_current usual_boolean plain_zone 5601
                {| req_method := "GET"; req_user := AnonymousUser;
                   query_params := {[ "all" := "True" ]} |}
                [booking 1 alice REQUESTED; booking 2 bob CONFIRMED])
      as (_ & Hall & _).
    apply Hall. reflexivity.
Defined.

Lemma list_queryset_hides_others_witness :
  list_queryset no_uuid usual_boolean plain_zone by_resource_pk 5100
    (listing (Authenticated alice) "1")
    [booking 1 alice DENIED; booking 2 bob DENIED; booking 3 bob CONFIRMED]
  = Ok [booking 1 alice DENIED] ∧
  sublist [booking 1 alice DENIED]
    [booking 1 alice DENIED; booking 2 bob DENIED; booking 3 bob CONFIRMED].
Proof.
  split; [reflexivity|].
  destruct (list_queryset_hides_others no_uuid usual_boolean plain_zone
              by_resource_pk 5100 (listing (Authenticated alice) "1")
              [booking 1 alice DENIED; booking 2 bob DENIED;
               booking 3 bob CONFIRMED]
              [booking 1 alice DENIED]) as (Hsub & _); [reflexivity|].
  exact Hsub.
Defined.

Lemma created_reservation_is_listed_witness :
  (5000 ≤ end_ (perform_create alice (wanted room 5000) ∅).1.1)%Z.
Proof.
  destruct (created_reservation_is_listed (fields_of (wanted room 5000))
              nested_user_valid no_users accept_period accept_quota
              accept_clean usual_boolean plain_zone alice 5000 8600 5000 ∅ ∅
              (perform_create alice (wanted room 5000) ∅).1.2
              (perform_create alice (wanted room 5000) ∅).1.1
              (perform_create alice (wanted room 5000) ∅).2
              (listing AnonymousUser "1")
              [(perform_create alice (wanted room 5000) ∅).1.1])
    as (Hend & _);
    [reflexivity | reflexivity | reflexivity | done
    | apply list_elem_of_here |].
  exact Hend.
Defined.

(** ** ReservationSerializer.to_representation *)

(** A value of the serialized data: a JSON value, or a datetime object
    handed to the spreadsheet renderer as it is. *)
Inductive Value :=
| Plain (j : Json)
| Datetime (t : Z).

(** What [to_representation] ends with: the data, or the exception of a
    [del] on a key that is not there, or of reading [.email] off a
    reservation that has no user. *)
Inductive Represented :=
| Representation (data : gmap string Value)
| RaisedKeyError (key : string)
| RaisedAttributeError (attr : string).

(** [for field_name in names: data.pop(field_name, None)] *)
Definition pop_each (names : list string) (data : gmap string Value)
    : gmap string Value :=
  fold_left (λ data field_name, delete field_name data) names data.

Section Representation.

(** Outside the sources: the framework's [super().to_representation], the
    tuple [RESERVATION_EXTRA_FIELDS], the model method
    [are_extra_fields_visible] and the attributes [resource.unit.name],
    [resource.name] and [user.email]. *)
Context
  (super_to_representation : Reservation → gmap string Value)
  (RESERVATION_EXTRA_FIELDS : list string)
  (are_extra_fields_visible : Reservation → RequestUser → bool)
  (unit_name resource_name : Resource → string)
  (email : User → string).

(** [format] is [request.accepted_renderer.format]. *)
Definition to_representation (instance : Reservation)
    (request_user : RequestUser) (format : string) : Represented :=
  let data := super_to_representation instance in
  let data :=
    if String.eqb format "xlsx" then
      match user instance with
      | Some u =>
          Some (<["user" := Plain (JStr (email u))]>
                  (<["end" := Datetime (end_ instance)]>
                     (<["begin" := Datetime (begin_ instance)]>
                        (<["resource" :=
                             Plain (JStr (resource_name (resource instance)))]>
                           (<["unit" :=
                                Plain (JStr (unit_name (resource instance)))]>
                              data)))))
      | None => None
      end
    else Some data in
  match data with
  | None => RaisedAttributeError "email"
  | Some data =>
      let hide_extra data :=
        if negb (are_extra_fields_visible instance request_user)
        then pop_each RESERVATION_EXTRA_FIELDS data else data in
      if negb (is_admin (resource instance) request_user) then
        match data !! "comments" with
        | None => RaisedKeyError "comments"
        | Some _ =>
            let data := delete "comments" data in
            match data !! "user" with
            | None => RaisedKeyError "user"
            | Some _ => Representation (hide_extra (delete "user" data))
            end
        end
      else Representation (hide_extra data)
  end.

Lemma pop_each_lookup names data k :
  pop_each names data !! k = if bool_decide (k ∈ names) then None
                             else data !! k.
Proof.
  unfold pop_each. revert data.
  induction names as [|n names IH]; intros data; simpl; [done|].
  rewrite IH. destruct (decide (k = n)) as [->|Hne].
  - rewrite lookup_delete_eq.
    rewrite (bool_decide_eq_true_2 (n ∈ n :: names))
      by apply list_elem_of_here.
    by case_bool_decide.
  - rewrite lookup_delete_ne by done.
    rewrite (bool_decide_ext (k ∈ n :: names) (k ∈ names)); [done|].
    rewrite elem_of_cons. split; [by intros [?|?] | auto].
Qed.

(** X14. What a viewer who does not administer the resource gets never
    holds [comments] or [user], in either format; a viewer to whom the
    extra fields are not visible gets none of them; and outside the
    spreadsheet format nothing is added or altered: every entry of the
    result is an entry of the framework's representation. *)
Theorem to_representation_redacts (instance : Reservation)
    (request_user : RequestUser) (format : string)
    (data : gmap string Value) :
  to_representation instance request_user format = Representation data →
  (is_admin (resource instance) request_user = false →
   data !! "comments" = None ∧ data !! "user" = None) ∧
  (are_extra_fields_visible instance request_user = false →
   ∀ field_name, field_name ∈ RESERVATION_EXTRA_FIELDS →
                 data !! field_name = None) ∧
  (format ≠ "xlsx" →
   ∀ k v, data !! k = Some v →
          super_to_representation instance !! k = Some v).
Proof.
  unfold to_representation. intros Hrep.
  destruct (if String.eqb format "xlsx" then _ else _) as [d|] eqn:Hd;
    [|done].
  assert (Hhide : ∀ d' k,
            (if negb (are_extra_fields_visible instance request_user)
             then pop_each RESERVATION_EXTRA_FIELDS d' else d') !! k
            = if negb (are_extra_fields_visible instance request_user)
                 && bool_decide (k ∈ RESERVATION_EXTRA_FIELDS)
              then None else d' !! k).
  { intros d' k.
    destruct (are_extra_fields_visible instance request_user); simpl;
      [done|]. apply pop_each_lookup. }
  assert (Hdata : ∃ d',
            data = (if negb (are_extra_fields_visible instance request_user)
                    then pop_each RESERVATION_EXTRA_FIELDS d' else d') ∧
            (∀ k v, d' !! k = Some v → d !! k = Some v) ∧
            (is_admin (resource instance) request_user = false →
             d' !! "comments" = None ∧ d' !! "user" = None)).
  { destruct (is_admin (resource instance) request_user); simpl in Hrep.
    - injection Hrep as <-. by exists d.
    - destruct (d !! "comments") as [c|]; [|done].
      destruct (delete "comments" d !! "user") as [o|]; [|done].
      injection Hrep as <-. eexists. split; [done|]. split.
      + intros k v Hk. apply lookup_delete_Some in Hk as [_ Hk].
        by apply lookup_delete_Some in Hk as [_ Hk].
      + intros _. rewrite lookup_delete_eq.
        by rewrite lookup_delete_ne, lookup_delete_eq. }
  destruct Hdata as (d' & -> & Hsub & Hadm).
  split; [|split].
  - intros Hna. destruct (Hadm Hna) as [Hc Hu]. rewrite !Hhide.
    split; by destruct (_ && _).
  - intros Hvis f Hf. rewrite Hhide, Hvis. simpl.
    by rewrite bool_decide_eq_true_2.
  - intros Hfmt k v Hk. apply String.eqb_neq in Hfmt. rewrite Hfmt in Hd.
    injection Hd as <-. apply Hsub. rewrite Hhide in Hk.
    by destruct (_ && _).
Qed.

End Representation.

(** A framework representation with one extra field. *)
Definition framework_fields : Reservation → gmap string Value :=
  λ r, {[ "id" := Plain (JNum (pk r));
          "comments" := Plain (JStr "bring the projector");
          "user" := Plain (JObj [("id", JNum 1)]);
          "reserver_name" := Plain (JStr "Alice") ]}.
Definition visible_to_managers : Reservation → RequestUser → bool :=
  λ r u, is_admin (resource r) u.
Definition resource_title : Resource → string := λ _, "Room".
Definition user_email : User → string := λ _, "user@example.org".

Lemma to_representation_redacts_witness :
  to_representation framework_fields ["reserver_name"] visible_to_managers
    resource_title resource_title user_email (booking 1 alice CONFIRMED)
    (Authenticated bob) "json"
  = Representation
      (pop_each ["reserver_name"]
         (delete "user"
            (delete "comments" (framework_fields (booking 1 alice CONFIRMED)))))
  ∧
  pop_each ["reserver_name"]
    (delete "user"
       (delete "comments" (framework_fields (booking 1 alice CONFIRMED))))
    !! "comments" = None.
Proof.
  split; [reflexivity|].
  destruct (to_representation_redacts framework_fields ["reserver_name"]
              visible_to_managers resource_title resource_title user_email
              (booking 1 alice CONFIRMED) (Authenticated bob) "json"
              (pop_each ["reserver_name"]
                 (delete "user"
                    (delete "comments"
                       (framework_fields (booking 1 alice CONFIRMED))))))
    as (Hadmin & _); [reflexivity|].
  exact (proj1 (Hadmin eq_refl)).
Defined.

(** ** A further property of the object permission *)

(** X16. For a mutating request the object permission is never granted
    to somebody who neither administers the resource nor owns the
    reservation: the right to approve reservations alone does not open a
    reservation for writing. *)
Theorem write_needs_admin_or_owner
    (reservation_need_manual_confirmation : Reservation → bool)
    (request : Request) (obj : Reservation) :
  req_method request ∉ SAFE_METHODS →
  is_admin (resource obj) (req_user request) = false →
  user_eq (user obj) (req_user request) = false →
  has_object_permission reservation_need_manual_confirmation request obj
  = false.
Proof.
  intros Hunsafe Hadmin Howner. unfold has_object_permission.
  rewrite bool_decide_eq_false_2 by done. rewrite Hadmin, Howner.
  by destruct (_ && _).
Qed.

(** A room whose reservations bob may approve without administering it. *)
Definition approved_by_bob : Resource :=
  {| resource_pk := 12; need_manual_confirmation := true;
     can_make_reservations := λ _, true;
     can_approve_reservations :=
       λ u, match u with
            | Authenticated u => bool_decide (user_pk u = 2)
            | AnonymousUser => false
            end;
     is_admin := room_manager |}.

Lemma write_needs_admin_or_owner_witness :
  can_approve_reservations approved_by_bob (Authenticated bob) = true ∧
  has_object_permission manual
    {| req_method := "PUT"; req_user := Authenticated bob;
       query_params := ∅ |}
    {| pk := 7; resource := approved_by_bob; user := Some alice;
       begin_ := 1000; end_ := 2000; comments := None; state := REQUESTED;
       extra_fields := ∅; created_by := Some alice;
       modified_by := Some alice |}
  = false.
Proof.
  split; [reflexivity|].
  apply (write_needs_admin_or_owner manual);
    [in_list | reflexivity | reflexivity].
Defined.


End Api.

Module Ews.

(** ** XML trees and ItemID (respa_exchange/ews/objs.py) *)

(** An element: its tag as namespace URI and local name, its attributes,
    its text and its children in document order. *)
#[warnings="-register-all"]
Inductive Element :=
| Elem (tag : string * string) (attrib : gmap string string)
       (text : string) (children : list Element).

Definition tag (e : Element) : string * string :=
  match e with Elem t _ _ _ => t end.
Definition attrib (e : Element) : gmap string string :=
  match e with Elem _ a _ _ => a end.
Definition children (e : Element) : list Element :=
  match e with Elem _ _ _ cs => cs end.

(** [e.iterdescendants()]: every element below [e] in document order;
    [e] itself is not among them. *)
Fixpoint iterdescendants (e : Element) : list Element :=
  match e with
  | Elem _ _ _ cs => flat_map (λ c, c :: iterdescendants c) cs
  end.

(** [e.iter()]: [e] and then its descendants. *)
Definition iter (e : Element) : list Element := e :: iterdescendants e.

Record ItemID := {
  id : string;
  change_key : option string
}.

(** The element maker's check of a string it is given. A string stands
    for its UTF-8 bytes. A byte below 128 must be a character XML allows:
    tab, line feed, carriage return, or anything from the space upwards.
    A byte from 128 upwards that has two bytes after it must not begin the
    encoding of U+FFFE or U+FFFF, nor one of a surrogate. *)
Definition xmlIsChar_ch (c : Z) : bool :=
  ((9 <=? c) && (c <=? 10) || (c =? 13) || (32 <=? c))%Z.

Definition forbidden_utf8 (b0 b1 b2 : Z) : bool :=
  let next3 := (b0 * 65536 + b1 * 256 + b2)%Z in
  ((next3 =? 15712190) || (next3 =? 15712191)
   || ((15573120 <=? next3) && (next3 <=? 15581119)))%Z.

Definition byte_of (c : ascii) : Z := Z.of_nat (nat_of_ascii c).

Fixpoint xml_compatible (s : string) : bool :=
  match s with
  | EmptyString => true
  | String c s' =>
      (if (byte_of c <? 128)%Z then xmlIsChar_ch (byte_of c)
       else
         match s' with
         | String c1 (String c2 _) =>
             negb (forbidden_utf8 (byte_of c) (byte_of c1) (byte_of c2))
         | _ => true
         end)
      && xml_compatible s'
  end.

Definition not_xml_compatible : string :=
  "All strings must be XML compatible: Unicode or ASCII, no NULL bytes or control characters".

Section Namespace.

(** The module [.xml] is not among the sources. [types_namespace] is the
    URI its [NAMESPACES] binds to the prefix [t]; [T] is the element maker
    of that namespace. *)
Context (types_namespace : string).

Definition ItemId_tag : string * string := (types_namespace, "ItemId").

(** [T.ItemId(Id=..., ChangeKey=...)]: an element without text or
    children. The maker takes the attributes in the order they are
    written. A string value goes through [xml_compatible] and raises the
    ValueError when it fails; a value that is no string, here a change key
    that is [None], has no entry in the maker's type map and raises the
    KeyError of that lookup. *)
Definition to_xml (self : ItemID) : result Element :=
  if negb (xml_compatible (id self)) then Raise (ValueError not_xml_compatible)
  else
    match change_key self with
    | None => Raise (KeyError "NoneType")
    | Some ck =>
        if negb (xml_compatible ck) then Raise (ValueError not_xml_compatible)
        else
          Ok (Elem ItemId_tag {[ "Id" := id self; "ChangeKey" := ck ]} "" [])
    end.

(** [tree.find(".//t:ItemId", namespaces=NAMESPACES)] *)
Definition find_ItemId (tree : Element) : option Element :=
  List.find (λ e, bool_decide (tag e = ItemId_tag)) (iterdescendants tree).

Definition from_tree (tree : Element) : result ItemID :=
  match find_ItemId tree with
  | None => Raise (ValueError "Could not find ItemId element in tree")
  | Some item_id =>
      match attrib item_id !! "Id" with
      | None => Raise (KeyError "Id")
      | Some i =>
          Ok {| id := i; change_key := attrib item_id !! "ChangeKey" |}
      end
  end.

End Namespace.

(** ** Sample data *)

Definition exchange_types : string :=
  "http://schemas.microsoft.com/exchange/services/2006/types".

Definition calendar_item : ItemID :=
  {| id := "AAMkADk0"; change_key := Some "DwAAABYA" |}.

(** A bare [ItemId] element with an [Id] and no [ChangeKey]. *)
Definition lone_item_id : Element :=
  Elem (ItemId_tag exchange_types) {[ "Id" := "AQMkAGE1" ]} "" [].

(** A response that wraps an [ItemId] element two levels deep, after a
    sibling of another name. *)
Definition response_around (item_id : Element) : Element :=
  Elem (exchange_types, "Items") ∅ ""
    [ Elem (exchange_types, "Subject") ∅ "Weekly" [];
      Elem (exchange_types, "CalendarItem") ∅ "" [item_id] ].

(** ** Properties of ItemID *)

Lemma find_None_iff {A} (f : A → bool) (l : list A) :
  List.find f l = None ↔ ∀ x, x ∈ l → f x = false.
Proof.
  induction l as [|a l IH]; simpl.
  - split; [|done]. intros _ x Hx. by apply elem_of_nil in Hx.
  - destruct (f a) eqn:Hfa.
    + split; [done|]. intros Hall.
      rewrite (Hall a) in Hfa; [done|apply list_elem_of_here].
    + rewrite IH. split.
      * intros Hall x Hx. apply elem_of_cons in Hx as [->|Hx]; auto.
      * intros Hall x Hx. apply Hall. by apply list_elem_of_further.
Qed.

Lemma find_first {A} (f : A → bool) (before after : list A) (x : A) :
  (∀ y, y ∈ before → f y = false) → f x = true →
  List.find f (before ++ x :: after) = Some x.
Proof.
  intros Hbefore Hx. induction before as [|b before IH]; simpl.
  - by rewrite Hx.
  - rewrite (Hbefore b) by apply list_elem_of_here.
    apply IH. intros y Hy. apply Hbefore. by apply list_elem_of_further.
Qed.

Lemma find_ItemId_first ns tree before item_id after :
  iterdescendants tree = before ++ item_id :: after →
  (∀ e, e ∈ before → tag e ≠ ItemId_tag ns) →
  tag item_id = ItemId_tag ns →
  find_ItemId ns tree = Some item_id.
Proof.
  intros Hdesc Hbefore Htag. unfold find_ItemId. rewrite Hdesc.
  apply find_first.
  - intros y Hy. apply bool_decide_eq_false_2. by apply Hbefore.
  - by apply bool_decide_eq_true_2.
Qed.

Lemma from_tree_first ns tree before item_id after :
  iterdescendants tree = before ++ item_id :: after →
  (∀ e, e ∈ before → tag e ≠ ItemId_tag ns) →
  tag item_id = ItemId_tag ns →
  from_tree ns tree
  = match attrib item_id !! "Id" with
    | None => Raise (KeyError "Id")
    | Some i => Ok {| id := i; change_key := attrib item_id !! "ChangeKey" |}
    end.
Proof.
  intros Hdesc Hbefore Htag. unfold from_tree.
  by rewrite (find_ItemId_first _ _ _ _ _ Hdesc Hbefore Htag).
Qed.

(** C10 (as amended). [from_tree] raises the ValueError exactly when no
    element below the root of the tree is an ItemId element; the root
    itself is not looked at. Otherwise it reads the first ItemId element
    below the root, in document order: a missing [Id] attribute raises
    the key error, else the result carries that [Id] and the [ChangeKey]
    attribute, or [None] when the element has none. *)
Theorem from_tree_result (types_namespace : string) (tree : Element) :
  (from_tree types_namespace tree
   = Raise (ValueError "Could not find ItemId element in tree")
   ↔ ∀ e, e ∈ iterdescendants tree → tag e ≠ ItemId_tag types_namespace) ∧
  (∀ before item_id after,
     iterdescendants tree = before ++ item_id :: after →
     (∀ e, e ∈ before → tag e ≠ ItemId_tag types_namespace) →
     tag item_id = ItemId_tag types_namespace →
     from_tree types_namespace tree
     = match attrib item_id !! "Id" with
       | None => Raise (KeyError "Id")
       | Some i =>
           Ok {| id := i; change_key := attrib item_id !! "ChangeKey" |}
       end).
Proof.
  split.
  - unfold from_tree, find_ItemId.
    destruct (List.find _ _) as [item_id|] eqn:Hfind.
    + split.
      * by destruct (attrib item_id !! "Id").
      * intros Hnone. apply find_some in Hfind as [Hin Htag].
        apply bool_decide_eq_true_1 in Htag.
        apply list_elem_of_In in Hin. by destruct (Hnone item_id Hin).
    + split; [|done]. intros _ e He.
      apply find_None_iff with (x := e) in Hfind; [|done].
      by apply bool_decide_eq_false_1 in Hfind.
  - intros before item_id after. apply from_tree_first.
Qed.

(** C9 (as amended). For an ItemID whose id and change key are strings
    the element maker accepts, [to_xml] gives an element on which
    [from_tree] itself raises the ValueError, because the element is the
    root of its own tree. On any tree in which that element is the first
    ItemId element below the root, for instance as the first child of any
    parent, [from_tree] gives back an ItemID with the same id and change
    key. When the maker does not accept one of the two strings, [to_xml]
    raises its ValueError and there is no element to read back. *)
Theorem to_xml_from_tree_roundtrip (types_namespace : string)
    (i ck : string) :
  (xml_compatible i = true → xml_compatible ck = true →
   ∃ e, to_xml types_namespace {| id := i; change_key := Some ck |} = Ok e ∧
        from_tree types_namespace e
        = Raise (ValueError "Could not find ItemId element in tree") ∧
        (∀ t a x rest,
           from_tree types_namespace (Elem t a x (e :: rest))
           = Ok {| id := i; change_key := Some ck |}) ∧
        (∀ tree before after,
           iterdescendants tree = before ++ e :: after →
           (∀ y, y ∈ before → tag y ≠ ItemId_tag types_namespace) →
           from_tree types_namespace tree
           = Ok {| id := i; change_key := Some ck |})) ∧
  (xml_compatible i = false ∨ xml_compatible ck = false →
   to_xml types_namespace {| id := i; change_key := Some ck |}
   = Raise (ValueError not_xml_compatible)).
Proof.
  split.
  - intros Hi Hck. unfold to_xml. simpl. rewrite Hi, Hck. simpl.
    eexists. split; [reflexivity|].
    assert (Hfirst : ∀ tree before after,
              iterdescendants tree
              = before
                ++ Elem (ItemId_tag types_namespace)
                     {[ "Id" := i; "ChangeKey" := ck ]} "" [] :: after →
              (∀ y, y ∈ before → tag y ≠ ItemId_tag types_namespace) →
              from_tree types_namespace tree
              = Ok {| id := i; change_key := Some ck |}).
    { intros tree before after Hdesc Hbefore.
      rewrite (from_tree_first _ _ _ _ _ Hdesc Hbefore eq_refl). simpl.
      rewrite lookup_insert_eq, lookup_insert_ne by done.
      by rewrite lookup_singleton_eq. }
    split; [reflexivity|]. split; [|exact Hfirst].
    intros t a x rest.
    apply (Hfirst _ [] (flat_map (λ c, c :: iterdescendants c) rest));
      [done|].
    intros y Hy. by apply elem_of_nil in Hy.
  - unfold to_xml. simpl. intros [->| ->]; simpl; [done|].
    by destruct (xml_compatible i).
Qed.

(** ** The statements at sample inputs *)

Lemma response_around_descendants (item_id : Element) :
  children item_id = [] →
  iterdescendants (response_around item_id)
  = [ Elem (exchange_types, "Subject") ∅ "Weekly" [];
      Elem (exchange_types, "CalendarItem") ∅ "" [item_id] ]
    ++ item_id :: [].
Proof. destruct item_id as [t a x cs]. simpl. by intros ->. Qed.

Lemma response_around_before (y : Element) (item_id : Element) :
  y ∈ [ Elem (exchange_types, "Subject") ∅ "Weekly" [];
        Elem (exchange_types, "CalendarItem") ∅ "" [item_id] ] →
  tag y ≠ ItemId_tag exchange_types.
Proof.
  rewrite !elem_of_cons, elem_of_nil. by intros [->|[->|[]]].
Qed.

Lemma to_xml_from_tree_roundtrip_witness :
  from_tree exchange_types
    (response_around
       (Elem (ItemId_tag exchange_types)
          {[ "Id" := "AAMkADk0"; "ChangeKey" := "DwAAABYA" ]} "" []))
  = Ok calendar_item ∧
  to_xml exchange_types
    {| id := String (ascii_of_nat 0) "AAMk"; change_key := Some "DwAAABYA" |}
  = Raise (ValueError not_xml_compatible).
Proof.
  split.
  - destruct (to_xml_from_tree_roundtrip exchange_types "AAMkADk0"
                "DwAAABYA") as (Hread & _).
    destruct (Hread eq_refl eq_refl) as (e & Hxml & _ & _ & Hfirst).
    injection Hxml as <-.
    eapply (Hfirst _ _ []).
    + by apply response_around_descendants.
    + intros y. apply response_around_before.
  - destruct (to_xml_from_tree_roundtrip exchange_types
                (String (ascii_of_nat 0) "AAMk") "DwAAABYA")
      as (_ & Hrefuse).
    apply Hrefuse. left. reflexivity.
Defined.

(** C9, as the specification words it: [from_tree] on the very element [to_xml]
    made for a calendar item raises instead of giving the item back. *)
Lemma from_tree_of_to_xml_raises :
  to_xml exchange_types calendar_item
  = Ok (Elem (ItemId_tag exchange_types)
          {[ "Id" := "AAMkADk0"; "ChangeKey" := "DwAAABYA" ]} "" []) ∧
  from_tree exchange_types
    (Elem (ItemId_tag exchange_types)
       {[ "Id" := "AAMkADk0"; "ChangeKey" := "DwAAABYA" ]} "" [])
  = Raise (ValueError "Could not find ItemId element in tree").
Proof. by split. Qed.

Lemma from_tree_result_witness :
  from_tree exchange_types (response_around lone_item_id)
  = Ok {| id := "AQMkAGE1"; change_key := None |} ∧
  from_tree exchange_types (Elem (exchange_types, "Items") ∅ "" [])
  = Raise (ValueError "Could not find ItemId element in tree").
Proof.
  split.
  - destruct (from_tree_result exchange_types (response_around lone_item_id))
      as (_ & Hread).
    eapply (Hread _ lone_item_id []).
    + by apply response_around_descendants.
    + intros y. apply response_around_before.
    + reflexivity.
  - destruct (from_tree_result exchange_types
                (Elem (exchange_types, "Items") ∅ "" [])) as (Hnone & _).
    apply Hnone. intros e He. by apply elem_of_nil in He.
Defined.

(** C10, as the specification words it: a tree whose root is an ItemId element does
    contain one, yet [from_tree] raises the ValueError on it. *)
Lemma from_tree_root_ItemId_raises :
  lone_item_id ∈ iter lone_item_id ∧
  tag lone_item_id = ItemId_tag exchange_types ∧
  attrib lone_item_id !! "Id" = Some "AQMkAGE1" ∧
  from_tree exchange_types lone_item_id
  = Raise (ValueError "Could not find ItemId element in tree").
Proof. repeat split. apply list_elem_of_here. Qed.


(** ** Further properties of ItemID *)

Lemma find_app_first {A} (f : A → bool) (l1 l2 : list A) :
  List.find f (l1 ++ l2)
  = match List.find f l1 with
    | Some x => Some x
    | None => List.find f l2
    end.
Proof.
  induction l1 as [|a l1 IH]; simpl; [done|]. by destruct (f a).
Qed.

Lemma from_tree_ValueError_iff ns tree :
  from_tree ns tree = Raise (ValueError "Could not find ItemId element in tree")
  ↔ find_ItemId ns tree = None.
Proof.
  unfold from_tree. destruct (find_ItemId ns tree) as [e|]; [|done].
  by destruct (attrib e !! "Id").
Qed.

(** X15. [from_tree] walks the tree in document order and never looks at
    the root. An element without children gives the ValueError. With a
    first child [c]: if [c] is an ItemId element it is the one read, even
    when more follow; otherwise the answer is that of the subtree of [c]
    when an ItemId element lies below [c], and that of the tree without
    [c] when none does. *)
Theorem from_tree_document_order (types_namespace : string)
    (t : string * string) (a : gmap string string) (x : string)
    (c : Element) (rest : list Element) :
  from_tree types_namespace (Elem t a x [])
  = Raise (ValueError "Could not find ItemId element in tree") ∧
  (tag c = ItemId_tag types_namespace →
   from_tree types_namespace (Elem t a x (c :: rest))
   = match attrib c !! "Id" with
     | None => Raise (KeyError "Id")
     | Some i => Ok {| id := i; change_key := attrib c !! "ChangeKey" |}
     end) ∧
  (tag c ≠ ItemId_tag types_namespace →
   from_tree types_namespace c
   ≠ Raise (ValueError "Could not find ItemId element in tree") →
   from_tree types_namespace (Elem t a x (c :: rest))
   = from_tree types_namespace c) ∧
  (tag c ≠ ItemId_tag types_namespace →
   from_tree types_namespace c
   = Raise (ValueError "Could not find ItemId element in tree") →
   from_tree types_namespace (Elem t a x (c :: rest))
   = from_tree types_namespace (Elem t a x rest)).
Proof.
  assert (Hfind : find_ItemId types_namespace (Elem t a x (c :: rest))
                  = if bool_decide (tag c = ItemId_tag types_namespace)
                    then Some c
                    else match find_ItemId types_namespace c with
                         | Some e => Some e
                         | None =>
                             find_ItemId types_namespace (Elem t a x rest)
                         end).
  { unfold find_ItemId. simpl. case_bool_decide; [done|].
    by rewrite find_app_first. }
  split; [done|]. split; [|split].
  - intros Htag. unfold from_tree. rewrite Hfind.
    by rewrite bool_decide_eq_true_2.
  - intros Htag Hbelow. unfold from_tree at 1. rewrite Hfind.
    rewrite bool_decide_eq_false_2 by done.
    rewrite from_tree_ValueError_iff in Hbelow. unfold from_tree.
    by destruct (find_ItemId types_namespace c).
  - intros Htag Hnone. unfold from_tree at 1. rewrite Hfind.
    rewrite bool_decide_eq_false_2 by done.
    apply from_tree_ValueError_iff in Hnone. by rewrite Hnone.
Qed.

Lemma from_tree_document_order_witness :
  from_tree exchange_types (response_around lone_item_id)
  = from_tree exchange_types
      (Elem (exchange_types, "Items") ∅ ""
         [Elem (exchange_types, "CalendarItem") ∅ "" [lone_item_id]]).
Proof.
  destruct (from_tree_document_order exchange_types
              (exchange_types, "Items") ∅ ""
              (Elem (exchange_types, "Subject") ∅ "Weekly" [])
              [Elem (exchange_types, "CalendarItem") ∅ "" [lone_item_id]])
    as (_ & _ & _ & Hskip).
  apply Hskip; [discriminate | reflexivity].
Defined.

End Ews.
